(** * monitor-systemtimechanges: the clock deviation monitor of [main.py]

    A shallow embedding of [src/main.py] and the properties of its
    sampling loop.

    Modelling decisions, all visible in the definitions below:

    - The interpreter's integers are [Z], its strings are [string]; text
      is ASCII.  [int] on a string and [str] on an integer have the
      interpreter's default limit of 4300 digits.
    - A float is a binary64 value: the rational it denotes, an infinity
      or a NaN.  An operation on floats is the exact operation on the
      rationals followed by the rounding of IEEE 754 to the nearest
      binary64 value, ties to the even significand, with overflow to an
      infinity; the conversion of an integer to a float is the same
      rounding and raises [OverflowError] where it would overflow.  A
      clock reading ([time.time()]) is a finite float, given as the
      rational it denotes.  The zero of a float has no sign: no
      operation of the program gives a negative zero from finite
      readings that are floats.
    - The calls the program makes to the outside world (the clock, the
      logger, the console, the sleep, the opening of the log file) are
      answered by an explicit environment: each call either returns or
      raises what the environment says.  The two calls that report a
      refused command line (lines 56-57) and the set-up of lines 62-65
      are taken to return.
    - The [while True] loop runs over a finite list of environment
      answers, one per iteration; a run whose loop is still going when
      the list ends has outcome [Running]. *)

From Stdlib Require Import ZArith QArith Qabs Qround.
From Stdlib Require Import String Ascii List Bool Lia Lqa DecimalString DecimalPos.
Import ListNotations.

Local Open Scope string_scope.
Local Open Scope Z_scope.

(** ** Fragments of the Python runtime that the program uses *)

Module Py.

(** Values [check_positive_int] may be given (its docstring: int or str). *)
Inductive value : Type :=
| Int (z : Z)
| Str (s : string).

(** Exceptions.  [Exception msg] stands for any instance of a subclass
    of [Exception] other than the named ones, with [str(e) = msg]. *)
Inductive exn : Type :=
| KeyboardInterrupt
| SystemExit (code : Z)
| ValueError (msg : string)
| ArgumentTypeError (msg : string)
| OverflowError (msg : string)
| Exception (msg : string).

Inductive result (A : Type) : Type :=
| Ret (a : A)
| Raise (e : exn).
Arguments Ret {A} a.
Arguments Raise {A} e.

(** [isinstance(e, Exception)] *)
Definition is_Exception (e : exn) : bool :=
  match e with
  | KeyboardInterrupt | SystemExit _ => false
  | ValueError _ | ArgumentTypeError _ | OverflowError _ | Exception _ => true
  end.

(** The decimal digits of an integer, with its sign. *)
Definition str_int (z : Z) : string := NilZero.string_of_int (Z.to_int z).

(** [str(e)] *)
Definition exn_str (e : exn) : string :=
  match e with
  | KeyboardInterrupt => EmptyString
  | SystemExit code => str_int code
  | ValueError msg | ArgumentTypeError msg | OverflowError msg | Exception msg => msg
  end.

(** *** The limit on the conversions between integers and text *)

(** [sys.get_int_max_str_digits()], at its default. *)
Definition max_str_digits : Z := 4300.

(** The text of the [ValueError] that [str] raises at the limit. *)
Definition digit_limit_message : string :=
  "Exceeds the limit (4300 digits) for integer string conversion; use sys.set_int_max_str_digits() to increase the limit".

(** [str(z)], and a field [{z}] of an f-string: the digits of [z], or
    [ValueError] for an integer of more than [max_str_digits] digits. *)
Definition format_int (z : Z) : result string :=
  if 10 ^ max_str_digits <=? Z.abs z
  then Raise (ValueError digit_limit_message)
  else Ret (str_int z).

(** The text [str(v)] gives when it returns. *)
Definition str (v : value) : string :=
  match v with
  | Int z => str_int z
  | Str s => s
  end.

(** A field [{v}] of an f-string. *)
Definition format_value (v : value) : result string :=
  match v with
  | Int z => format_int z
  | Str s => Ret s
  end.

(** *** [int(s)] on a string, base 10 *)

(** The white space [int] strips from an ASCII string. *)
Definition isspace (c : ascii) : bool :=
  let n := nat_of_ascii c in
  (((9 <=? n) && (n <=? 13)) || (n =? 32))%nat.

Fixpoint lstrip (s : string) : string :=
  match s with
  | EmptyString => EmptyString
  | String c r => if isspace c then lstrip r else s
  end.

Fixpoint rstrip (s : string) : string :=
  match s with
  | EmptyString => EmptyString
  | String c r =>
      match rstrip r with
      | EmptyString => if isspace c then EmptyString else String c EmptyString
      | r' => String c r'
      end
  end.

Definition strip (s : string) : string := rstrip (lstrip s).

Definition digit (c : ascii) : option Z :=
  let n := nat_of_ascii c in
  if ((48 <=? n) && (n <=? 57))%nat then Some (Z.of_nat n - 48) else None.

Definition underscore : ascii := ascii_of_nat 95.
Definition plus_sign : ascii := ascii_of_nat 43.
Definition minus_sign : ascii := ascii_of_nat 45.

(** Digits with single underscores between them; [after_digit] says
    whether the previous character was a digit. *)
Fixpoint digits (acc : Z) (after_digit : bool) (s : string) : option Z :=
  match s with
  | EmptyString => if after_digit then Some acc else None
  | String c r =>
      match digit c with
      | Some d => digits (10 * acc + d) true r
      | None =>
          if Ascii.eqb c underscore && after_digit
          then digits acc false r
          else None
      end
  end.

(** The number of digits in a text, leading zeros counted, underscores not. *)
Fixpoint digit_count (s : string) : Z :=
  match s with
  | EmptyString => 0
  | String c r =>
      match digit c with
      | Some _ => 1 + digit_count r
      | None => digit_count r
      end
  end.

(** The digits after the sign: their value, unless there are more than
    [max_str_digits] of them. *)
Definition unsigned_of_str (s : string) : option Z :=
  match digits 0 false s with
  | Some z => if digit_count s <=? max_str_digits then Some z else None
  | None => None
  end.

Definition int_of_str (s : string) : option Z :=
  match strip s with
  | EmptyString => None
  | String c r =>
      if Ascii.eqb c plus_sign then unsigned_of_str r
      else if Ascii.eqb c minus_sign then option_map Z.opp (unsigned_of_str r)
      else unsigned_of_str (String c r)
  end.

(** [int(v)]: the identity on an integer, the parser on a string.  The
    text of its [ValueError] is not read anywhere in the program (line 38
    discards it, the parser writes a message of its own); it is given
    here without the quoting of the literal and without the wording for
    a text beyond the digit limit. *)
Definition int (v : value) : result Z :=
  match v with
  | Int z => Ret z
  | Str s =>
      match int_of_str s with
      | Some z => Ret z
      | None => Raise (ValueError ("invalid literal for int() with base 10: " ++ s))
      end
  end.

(** *** Floats *)

Inductive float : Type :=
| Finite (q : Q)
| Inf (negative : bool)
| NaN.

(** [2 ** e] *)
Definition pow2 (e : Z) : Q :=
  2 ^ Z.max 0 e # Z.to_pos (2 ^ Z.max 0 (- e)).

(** The fraction [n / d] divided by [2 ** k], as a fraction of integers. *)
Definition scaled (n d k : Z) : Z * Z :=
  (n * 2 ^ Z.max 0 (- k), d * 2 ^ Z.max 0 k).

(** Nearest integer to [n / d], ties to the even one ([0 < d]). *)
Definition div_half_even (n d : Z) : Z :=
  let q := n / d in
  let r := n mod d in
  match 2 * r ?= d with
  | Lt => q
  | Gt => q + 1
  | Eq => if Z.even q then q else q + 1
  end.

(** The integer part of the binary logarithm of [n / d] ([0 < n], [0 < d]). *)
Definition ilog2 (n d : Z) : Z :=
  let k := Z.log2 n - Z.log2 d in
  let '(n', d') := scaled n d k in
  if d' <=? n' then k else k - 1.

(** The binary64 value nearest to [n / d] ([0 < n], [0 < d]): 53 bits of
    significand, the least exponent of a unit in the last place -1074,
    overflow from [2 ** 1024]. *)
Definition round64_pos (n d : Z) : float :=
  let ex := Z.max (ilog2 n d - 52) (-1074) in
  let '(n', d') := scaled n d ex in
  let m := div_half_even n' d' in
  if 2 ^ 1024 <=? m * 2 ^ ex
  then Inf false
  else Finite (Qred (inject_Z m * pow2 ex)).

Definition float_opp (x : float) : float :=
  match x with
  | Finite q => Finite (- q)
  | Inf negative => Inf (negb negative)
  | NaN => NaN
  end.

(** The rounding of a rational to binary64. *)
Definition round64 (x : Q) : float :=
  let y := Qred x in
  match Qnum y with
  | 0 => Finite 0
  | Z.pos n => round64_pos (Z.pos n) (Z.pos (Qden y))
  | Z.neg n => float_opp (round64_pos (Z.pos n) (Z.pos (Qden y)))
  end.

(** [x - y] on floats. *)
Definition float_sub (x y : float) : float :=
  match x, y with
  | NaN, _ | _, NaN => NaN
  | Inf a, Inf b => if Bool.eqb a b then NaN else Inf a
  | Inf a, Finite _ => Inf a
  | Finite _, Inf b => Inf (negb b)
  | Finite p, Finite q => round64 (p - q)
  end.

(** [abs(x)] on a float. *)
Definition float_abs (x : float) : float :=
  match x with
  | Finite q => Finite (Qabs q)
  | Inf _ => Inf false
  | NaN => NaN
  end.

(** [float(z)], as the arithmetic of a float with an integer converts. *)
Definition float_of_int (z : Z) : result float :=
  match round64 (inject_Z z) with
  | Inf _ => Raise (OverflowError "int too large to convert to float")
  | f => Ret f
  end.

(** [x > y] on rationals. *)
Definition greater (x y : Q) : bool := negb (Qle_bool x y).

(** [x > z] for a float and an integer: the comparison is exact. *)
Definition float_gt_int (x : float) (z : Z) : bool :=
  match x with
  | Finite q => greater q (inject_Z z)
  | Inf negative => negb negative
  | NaN => false
  end.

(** *** [format(x, '.2f')] *)

(** Nearest integer to [x], ties to the even one. *)
Definition round_half_even (x : Q) : Z :=
  let y := Qred x in
  let n := Qnum y in
  let d := Z.pos (Qden y) in
  let q := n / d in
  let r := n mod d in
  match 2 * r ?= d with
  | Lt => q
  | Gt => q + 1
  | Eq => if Z.even q then q else q + 1
  end.

Definition two_digits (n : Z) : string :=
  if n <? 10 then "0" ++ str_int n else str_int n.

Definition format_2f_finite (x : Q) : string :=
  let c := Z.abs (round_half_even (x * 100)) in
  (if Qnum (Qred x) <? 0 then "-" else EmptyString)
    ++ str_int (c / 100) ++ "." ++ two_digits (c mod 100).

Definition format_2f (x : float) : string :=
  match x with
  | Finite q => format_2f_finite q
  | Inf negative => if negative then "-inf" else "inf"
  | NaN => "nan"
  end.

End Py.

Import Py.

(** A rational where a float is expected is the finite float of that value. *)
Coercion Finite : Q >-> float.

(** ** The program *)

(** What the program does to the outside world, in order.
    [assign_last_time] records the assignments of lines 68 and 80 so that
    their place among the calls can be stated. *)
Inductive event : Type :=
| parser_error (message : string)
| logging_error (msg : string)
| logging_info (msg : string)
| logging_warning (msg : string)
| print (msg : string)
| addHandler (filename : string)
| assign_last_time (t : Q)
| sleep (secs : Z).

(** The command line after tokenisation: the raw text given to each
    option, [None] when the option is absent. *)
Record argv : Type := {
  opt_interval : option string;
  opt_threshold : option string;
  opt_log_file : option string
}.

(** [args], the namespace [parse_args] returns. *)
Record Namespace : Type := {
  interval : Z;
  threshold : Z;
  log_file : string
}.

(** The answers of the environment to the calls [main] makes outside the
    loop: the opening of the log file (line 61), the calls of lines
    68-70, and the two calls of whichever handler runs (lines 84-85 or
    87-88). *)
Record startup : Type := {
  FileHandler : result unit;
  start_time : result Q;
  start_info : result unit;
  start_print : result unit;
  handler_logging : result unit;
  handler_print : result unit
}.

(** The answers of the environment to the calls of one loop iteration
    (lines 73-81).  The answers to the two alert calls are not consulted
    in an iteration that raises no alert. *)
Record tick : Type := {
  now : result Q;
  on_warning : result unit;
  on_print : result unit;
  on_sleep : result unit
}.

(** The store of the [try] block: the namespace object, the local
    [last_time], and what has been done so far. *)
Record store : Type := {
  args : Namespace;
  last_time : Q;
  history : list event
}.

(** A statement of the [try] block: it returns or raises, and leaves a store. *)
Definition M (A : Type) : Type := store -> result A * store.

Definition ret {A : Type} (a : A) : M A := fun st => (Ret a, st).

Definition bind {A B : Type} (m : M A) (k : A -> M B) : M B :=
  fun st =>
    match m st with
    | (Ret a, st') => k a st'
    | (Raise e, st') => (Raise e, st')
    end.

Declare Scope py_scope.
Delimit Scope py_scope with py.
Notation "x <- m ;; k" := (bind m (fun x => k))
  (at level 61, m at next level, right associativity) : py_scope.
Notation "m ;; k" := (bind m (fun _ => k))
  (at level 61, right associativity) : py_scope.

(** A call answered by the environment; a call that returns is recorded. *)
Definition call (answer : result unit) (ev : event) : M unit :=
  fun st =>
    match answer with
    | Ret _ => (Ret tt, {| args := args st; last_time := last_time st;
                           history := history st ++ [ev] |})
    | Raise e => (Raise e, st)
    end.

(** [time.time()] *)
Definition time_time (answer : result Q) : M Q := fun st => (answer, st).

(** An expression of the interpreter: its value, or what it raises. *)
Definition evaluate {A : Type} (r : result A) : M A := fun st => (r, st).

Definition read_args : M Namespace := fun st => (Ret (args st), st).
Definition read_last_time : M Q := fun st => (Ret (last_time st), st).

(** [last_time = t] *)
Definition write_last_time (t : Q) : M unit :=
  fun st => (Ret tt, {| args := args st; last_time := t;
                        history := history st ++ [assign_last_time t] |}).

(** The longest wait [time.sleep] accepts from an integer, in seconds:
    beyond it the nanoseconds do not fit the interpreter's clock. *)
Definition longest_sleep : Z := 9223372036.

(** [time.sleep(secs)] for an integer: the length is converted to
    nanoseconds, which refuses a length beyond [longest_sleep] either
    way; then a negative length is refused; then the environment is
    asked. *)
Definition time_sleep (answer : result unit) (secs : Z) : M unit :=
  if longest_sleep <? Z.abs secs
  then evaluate (Raise (OverflowError "timestamp too large to convert to C _PyTime_t"))
  else if secs <? 0
  then evaluate (Raise (ValueError "sleep length must be non-negative"))
  else call answer (sleep secs).

(** An option of the parser: its flags and its default. *)
Record argument (A : Type) : Type := {
  option_strings : string;
  default : A
}.
Arguments option_strings {A} _.
Arguments default {A} _.

(** The parser: two options declared with [type=int], one with [type=str]. *)
Record ArgumentParser : Type := {
  interval_argument : argument Z;
  threshold_argument : argument Z;
  log_file_argument : argument string
}.

(** Lines 10-21. *)
Definition setup_argparse : ArgumentParser :=
  {| interval_argument := {| option_strings := "-i/--interval"; default := 1 |};
     threshold_argument := {| option_strings := "-t/--threshold"; default := 5 |};
     log_file_argument := {| option_strings := "-l/--log-file";
                             default := "system_time_monitor.log" |} |}.

(** The conversion [parse_args] applies to an option declared with
    [type=int]: the text given is converted with [int]; a text that does
    not convert is an error of the parser.  An absent option takes the
    default as it is. *)
Definition convert_int (arg : argument Z) (raw : option string) : Z + string :=
  match raw with
  | None => inl (default arg)
  | Some s =>
      match int_of_str s with
      | Some z => inl z
      | None =>
          inr ("argument " ++ option_strings arg ++ ": invalid int value: '" ++ s ++ "'")
      end
  end.

(** Line 49: [parser.parse_args()], to the namespace or to the message
    with which the parser exits. *)
Definition parse_args (parser : ArgumentParser) (a : argv) : Namespace + string :=
  match convert_int (interval_argument parser) (opt_interval a) with
  | inr message => inr message
  | inl i =>
      match convert_int (threshold_argument parser) (opt_threshold a) with
      | inr message => inr message
      | inl t =>
          inl {| interval := i; threshold := t;
                 log_file := match opt_log_file a with
                             | Some f => f
                             | None => default (log_file_argument parser)
                             end |}
      end
  end.

(** Lines 39 and 41: [raise ArgumentTypeError(f"...'{value}'")]; the
    f-string is evaluated first and may itself raise. *)
Definition raise_invalid (value : Py.value) : result Z :=
  match format_value value with
  | Raise e => Raise e
  | Ret text =>
      Raise (ArgumentTypeError ("Invalid positive int value: '" ++ text ++ "'"))
  end.

(** Lines 23-42. *)
Definition check_positive_int (value : Py.value) : result Z :=
  match Py.int value with
  | Raise (ValueError _) => raise_invalid value
  | Raise e => Raise e
  | Ret ivalue =>
      if ivalue <=? 0
      then raise_invalid value
      else Ret ivalue
  end.

(** Line 76, left of the comparison: [abs(time_difference - args.interval)].
    The integer is converted to a float, which may raise. *)
Definition deviation (a : Namespace) (time_difference : float) : result float :=
  match float_of_int (interval a) with
  | Raise e => Raise e
  | Ret i => Ret (float_abs (float_sub time_difference i))
  end.

(** Line 76: [abs(time_difference - args.interval) > args.threshold]. *)
Definition test_of_line_76 (a : Namespace) (time_difference : float) : result bool :=
  match deviation a time_difference with
  | Raise e => Raise e
  | Ret d => Ret (float_gt_int d (threshold a))
  end.

(** Whether the test of line 76 evaluates to [True]. *)
Definition significant_change (a : Namespace) (time_difference : float) : bool :=
  match test_of_line_76 a time_difference with
  | Ret b => b
  | Raise _ => false
  end.

(** The f-string shared by lines 77 and 78. *)
Definition change_message (a : Namespace) (time_difference : float) : result string :=
  match format_int (interval a) with
  | Raise e => Raise e
  | Ret i =>
      Ret ("Significant system time change detected: " ++ format_2f time_difference
             ++ " seconds since last check (expected ~" ++ i ++ "s)")
  end.

Local Open Scope py_scope.

(** Lines 73-81: one iteration of the loop. *)
Definition loop_body (k : tick) : M unit :=
  current_time <- time_time (now k) ;;
  last <- read_last_time ;;
  let time_difference := float_sub (Finite current_time) (Finite last) in
  a <- read_args ;;
  significant <- evaluate (test_of_line_76 a time_difference) ;;
  (if significant : bool
   then
     msg <- evaluate (change_message a time_difference) ;;
     call (on_warning k) (logging_warning msg) ;;
     msg <- evaluate (change_message a time_difference) ;;
     call (on_print k) (print ("Warning: " ++ msg))
   else ret tt) ;;
  write_last_time current_time ;;
  a <- read_args ;;
  time_sleep (on_sleep k) (interval a).

(** Line 72: [while True], over the iterations the environment answers. *)
Fixpoint while_True (ticks : list tick) : M unit :=
  match ticks with
  | [] => ret tt
  | k :: rest => loop_body k ;; while_True rest
  end.

(** Lines 69-81: the [try] block after its first assignment. *)
Definition monitor (s : startup) (ticks : list tick) : M unit :=
  call (start_info s) (logging_info "System time monitor started.") ;;
  a <- read_args ;;
  call (start_print s) (print ("System time monitor started.  Logging to " ++ log_file a)) ;;
  while_True ticks.

(** How a call of [main] ends within the observed answers. *)
Inductive outcome : Type :=
| Returns (code : Z)
| Raises (e : exn)
| Running.

(** The body of a handler: a call of the logger, a call of [print], then
    [main] returns [code]; an exception raised by either call leaves
    the handler and [main]. *)
Definition handler (s : startup) (code : Z) (logged printed : event)
  : outcome * list event :=
  match handler_logging s with
  | Raise e => (Raises e, [])
  | Ret _ =>
      match handler_print s with
      | Raise e => (Raises e, [logged])
      | Ret _ => (Returns code, [logged; printed])
      end
  end.

(** Lines 83-91: the handlers of the [try] statement, given how its
    block ended; what they emit and how [main] ends. *)
Definition except_clauses (s : startup) (r : result unit) : outcome * list event :=
  match r with
  | Ret _ => (Running, [])
  | Raise KeyboardInterrupt =>
      handler s 0
        (logging_info "System time monitor stopped by user.")
        (print "System time monitor stopped.")
  | Raise e =>
      if is_Exception e
      then handler s 1
             (logging_error ("An unexpected error occurred: " ++ exn_str e))
             (print ("Error: " ++ exn_str e))
      else (Raises e, [])
  end.

(** Lines 67-91: the [try] statement.  [h] is what was done before it;
    the store exists from the assignment of line 68. *)
Definition try_block (a : Namespace) (h : list event) (s : startup) (ticks : list tick)
  : outcome * list event :=
  let '(r, h') :=
    match start_time s with
    | Raise e => (Raise e, h)
    | Ret t0 =>
        let '(r, st) :=
          monitor s ticks {| args := a; last_time := t0;
                             history := (h ++ [assign_last_time t0])%list |} in
        (r, history st)
    end in
  let '(o, ev) := except_clauses s r in
  (o, (h' ++ ev)%list).

(** Lines 44-91. *)
Definition main (cmdline : argv) (s : startup) (ticks : list tick) : outcome * list event :=
  let parser := setup_argparse in
  match parse_args parser cmdline with
  | inr message => (Raises (SystemExit 2), [parser_error message])
  | inl parsed =>
      let validated :=
        match check_positive_int (Int (interval parsed)) with
        | Raise e => Raise e
        | Ret i =>
            match check_positive_int (Int (threshold parsed)) with
            | Raise e => Raise e
            | Ret t => Ret {| interval := i; threshold := t; log_file := log_file parsed |}
            end
        end in
      match validated with
      | Raise (ArgumentTypeError msg) =>
          (Returns 1, [logging_error ("Error: " ++ msg); print ("Error: " ++ msg)])
      | Raise e => (Raises e, [])
      | Ret a =>
          match FileHandler s with
          | Raise e => (Raises e, [])
          | Ret _ => try_block a [addHandler (log_file a)] s ticks
          end
      end
  end.

(** Lines 93-99: the exit status of the process, [None] while it runs.
    [root] is [os.geteuid() == 0]. *)
Definition exit_status (o : outcome) : option Z :=
  match o with
  | Returns code => Some code
  | Raises (SystemExit code) => Some code
  | Raises KeyboardInterrupt => Some 130
  | Raises _ => Some 1
  | Running => None
  end.

Definition root_warning : list event :=
  [print "Warning: Running as root.  Consider running as a non-privileged user for security reasons.";
   logging_warning "Running as root. Consider running as a non-privileged user for security reasons."].

Definition script (root : bool) (cmdline : argv) (s : startup) (ticks : list tick)
  : option Z * list event :=
  let '(o, h) := main cmdline s ticks in
  (exit_status o, ((if root then root_warning else []) ++ h)%list).

(** ** Vocabulary of the properties *)

(** An alert is a record of line 77 or of line 78. *)
Definition is_alert (e : event) : bool :=
  match e with
  | logging_warning msg => prefix "Significant system time change detected" msg
  | print msg => prefix "Warning: Significant system time change detected" msg
  | _ => false
  end.

Definition alerts (h : list event) : list event := filter is_alert h.

Definition is_assignment (e : event) : bool :=
  match e with
  | assign_last_time _ => true
  | _ => false
  end.

Definition is_sleep (e : event) : bool :=
  match e with
  | sleep _ => true
  | _ => false
  end.

(** The largest integer up to which every integer is a binary64 value. *)
Definition exact_int_bound : Z := 2 ^ 53.

(** [x] is a binary64 value: the rounding leaves it as it is. *)
Definition is_binary64 (x : Q) : Prop := round64 x = Finite (Qred x).

(** Every elapsed time the loop measures over [ticks], starting from the
    reading [last], is a finite float within the threshold of the
    interval. *)
Fixpoint undisturbed (a : Namespace) (last : Q) (ticks : list tick) : Prop :=
  match ticks with
  | [] => True
  | k :: rest =>
      match now k with
      | Ret t =>
          (exists delta : Q,
              float_sub (Finite t) (Finite last) = Finite delta
              /\ (Qabs (delta - inject_Z (interval a)) <= inject_Z (threshold a))%Q)
          /\ undisturbed a t rest
      | Raise _ => True
      end
  end.

(** An environment in which every call outside the loop returns. *)
Definition started_at (t : Q) : startup :=
  {| FileHandler := Ret tt; start_time := Ret t; start_info := Ret tt;
     start_print := Ret tt; handler_logging := Ret tt; handler_print := Ret tt |}.

(** An environment in which the log file opens and the calls of lines
    68-70 return, the clock reading [t]; the handler's two calls are
    answered as given. *)
Definition started_with (t : Q) (logging_answer print_answer : result unit) : startup :=
  {| FileHandler := Ret tt; start_time := Ret t; start_info := Ret tt;
     start_print := Ret tt; handler_logging := logging_answer;
     handler_print := print_answer |}.

(** A namespace with the default log file. *)
Definition configuration (i t : Z) : Namespace :=
  {| interval := i; threshold := t; log_file := "system_time_monitor.log" |}.


Definition reading (t : Q) : tick :=
  {| now := Ret t; on_warning := Ret tt; on_print := Ret tt; on_sleep := Ret tt |}.

Definition interrupted_in_sleep (t : Q) : tick :=
  {| now := Ret t; on_warning := Ret tt; on_print := Ret tt;
     on_sleep := Raise KeyboardInterrupt |}.

(** The store at the first test of [while True], after a start in which
    every call returned and the clock read [t0]. *)
Definition running (a : Namespace) (t0 : Q) : store :=
  {| args := a; last_time := t0;
     history := [addHandler (log_file a);
                 assign_last_time t0;
                 logging_info "System time monitor started.";
                 print ("System time monitor started.  Logging to " ++ log_file a)] |}.

(** [contains sub s]: [sub in s]. *)
Definition contains (sub s : string) : bool :=
  match index 0 sub s with
  | Some _ => true
  | None => false
  end.

(** The value of a decimal numeral read from the left onto [acc]. *)
Fixpoint uint_value (u : Decimal.uint) (acc : Z) : Z :=
  match u with
  | Decimal.Nil => acc
  | Decimal.D0 l => uint_value l (10 * acc + 0)
  | Decimal.D1 l => uint_value l (10 * acc + 1)
  | Decimal.D2 l => uint_value l (10 * acc + 2)
  | Decimal.D3 l => uint_value l (10 * acc + 3)
  | Decimal.D4 l => uint_value l (10 * acc + 4)
  | Decimal.D5 l => uint_value l (10 * acc + 5)
  | Decimal.D6 l => uint_value l (10 * acc + 6)
  | Decimal.D7 l => uint_value l (10 * acc + 7)
  | Decimal.D8 l => uint_value l (10 * acc + 8)
  | Decimal.D9 l => uint_value l (10 * acc + 9)
  end.

(** The integer an option denotes: its default when absent, the value of
    its text when that is numeric. *)
Definition supplied (default : Z) (raw : option string) : option Z :=
  match raw with
  | None => Some default
  | Some s => int_of_str s
  end.

Definition defaults : Namespace :=
  {| interval := 1; threshold := 5; log_file := "system_time_monitor.log" |}.

(** The command line [-i I -t T] and the one with [-i I] alone. *)
Definition options (i : string) (t : option string) : argv :=
  {| opt_interval := Some i; opt_threshold := t; opt_log_file := None |}.

(** The store of a loop under the defaults whose last reading was [t]. *)
Definition idle (t : Q) : store :=
  {| args := defaults; last_time := t; history := [] |}.

(** An iteration whose clock reading raises. *)
Definition clock_fails (msg : string) : tick :=
  {| now := Raise (Exception msg); on_warning := Ret tt; on_print := Ret tt;
     on_sleep := Ret tt |}.

Definition no_options : argv :=
  {| opt_interval := None; opt_threshold := None; opt_log_file := None |}.

(** The record of line 65. *)
Definition is_handler (e : event) : bool :=
  match e with
  | addHandler _ => true
  | _ => false
  end.

(** An iteration in which every call returns. *)
Definition completes (k : tick) : Prop :=
  (exists t, now k = Ret t)
  /\ on_warning k = Ret tt /\ on_print k = Ret tt /\ on_sleep k = Ret tt.

(** An iteration whose console line of line 78 raises [e]. *)
Definition print_fails (t : Q) (e : exn) : tick :=
  {| now := Ret t; on_warning := Ret tt; on_print := Raise e; on_sleep := Ret tt |}.

(** A start in which the clock reading of line 68 raises [e]. *)
Definition clock_fails_at_start (e : exn) : startup :=
  {| FileHandler := Ret tt; start_time := Raise e; start_info := Ret tt;
     start_print := Ret tt; handler_logging := Ret tt; handler_print := Ret tt |}.

(** The text of the exception of lines 39 and 41 for the value [v]. *)
Definition invalid_positive_int (v : Py.value) : string :=
  "Invalid positive int value: '" ++ str v ++ "'".


(** ** Checks of the runtime fragments on concrete inputs *)

Example int_of_str_plain : int_of_str "42" = Some 42.
Proof. reflexivity. Qed.
Example int_of_str_neg : int_of_str "-3" = Some (-3).
Proof. reflexivity. Qed.
Example int_of_str_spaces : int_of_str "  +1_000 " = Some 1000.
Proof. reflexivity. Qed.
Example int_of_str_word : int_of_str "abc" = None.
Proof. reflexivity. Qed.
Example int_of_str_float : int_of_str "1.5" = None.
Proof. reflexivity. Qed.
Example int_of_str_underscores : int_of_str "1__0" = None /\ int_of_str "1_" = None /\ int_of_str "_1" = None.
Proof. repeat split; reflexivity. Qed.
Example int_of_str_separator :
  int_of_str (String (ascii_of_nat 28) "5") = None
  /\ int_of_str (String (ascii_of_nat 11) "5 ") = Some 5.
Proof. split; reflexivity. Qed.
Example int_of_str_limit :
  int_of_str (str_int (10 ^ 4300 - 1)) = Some (10 ^ 4300 - 1)
  /\ int_of_str (str_int (10 ^ 4300)) = None.
Proof. split; vm_compute; reflexivity. Qed.
Example format_2f_ten : format_2f 10%Q = "10.00".
Proof. reflexivity. Qed.
Example format_2f_tie : format_2f (1 # 8)%Q = "0.12" /\ format_2f (3 # 8)%Q = "0.38".
Proof. split; reflexivity. Qed.
Example format_2f_neg :
  format_2f (- (31415 # 10000))%Q = "-3.14" /\ format_2f (- (1 # 1000))%Q = "-0.00".
Proof. split; reflexivity. Qed.
Example round64_tenth :
  round64 (1 # 10) = Finite (3602879701896397 # 36028797018963968).
Proof. vm_compute. reflexivity. Qed.
Example round64_ties_to_even :
  round64 (inject_Z (2 ^ 53 + 1)) = Finite (inject_Z (2 ^ 53))
  /\ round64 (inject_Z (2 ^ 53 + 3)) = Finite (inject_Z (2 ^ 53 + 4)).
Proof. split; vm_compute; reflexivity. Qed.
Example float_of_int_largest :
  float_of_int (2 ^ 1024 - 2 ^ 970 - 1) = Ret (Finite (inject_Z (2 ^ 1024 - 2 ^ 971)))
  /\ float_of_int (2 ^ 1024 - 2 ^ 970)
     = Raise (OverflowError "int too large to convert to float").
Proof. split; vm_compute; reflexivity. Qed.
Example float_sub_overflows :
  float_sub (Finite (inject_Z (2 ^ 1023))) (Finite (inject_Z (- 2 ^ 1023))) = Inf false.
Proof. vm_compute. reflexivity. Qed.
Example format_2f_special :
  format_2f (Inf false) = "inf" /\ format_2f (Inf true) = "-inf" /\ format_2f NaN = "nan".
Proof. repeat split. Qed.
(** ** Properties of the runtime fragments *)

Local Open Scope Z_scope.

(** *** Rounding to binary64 *)

Lemma no_remainder_is_below_half (d : Z) : 0 < d -> (2 * 0 ?= d) = Lt.
Proof. intros Hd. apply Z.compare_lt_iff. lia. Qed.

Lemma div_half_even_multiple (k d : Z) : 0 < d -> div_half_even (k * d) d = k.
Proof.
  intros Hd. unfold div_half_even.
  rewrite Z.div_mul, Z.mod_mul by lia.
  now rewrite (no_remainder_is_below_half d Hd).
Qed.

Lemma div_half_even_1 (n : Z) : div_half_even n 1 = n.
Proof.
  rewrite <- (Z.mul_1_r n) at 1. apply div_half_even_multiple. lia.
Qed.

Lemma div_half_even_cases (n d : Z) :
  div_half_even n d = n / d \/ div_half_even n d = n / d + 1.
Proof.
  unfold div_half_even.
  destruct (2 * (n mod d) ?= d); [destruct (Z.even (n / d))|..]; auto.
Qed.

Lemma div_half_even_lower (n d : Z) : n / d <= div_half_even n d.
Proof. destruct (div_half_even_cases n d) as [-> | ->]; lia. Qed.

(** The rounding of a fraction does not pass an integer above it. *)
Lemma div_half_even_upper (n d K : Z) :
  0 < d -> n <= K * d -> div_half_even n d <= K.
Proof.
  intros Hd Hn.
  assert (Hq : n / d <= K) by (apply Z.div_le_upper_bound; lia).
  destruct (Z.eq_dec (n / d) K) as [E|E].
  - assert (Hr : n mod d = 0).
    { pose proof (Z.div_mod n d ltac:(lia)) as Hdm.
      pose proof (Z.mod_pos_bound n d Hd) as Hb. rewrite E in Hdm. nia. }
    unfold div_half_even. rewrite Hr, (no_remainder_is_below_half d Hd). lia.
  - destruct (div_half_even_cases n d) as [-> | ->]; lia.
Qed.

Lemma Qred_inject_Z (z : Z) : Qred (inject_Z z) = inject_Z z.
Proof.
  unfold Qred, inject_Z.
  pose proof (Z.ggcd_correct_divisors z 1) as Hd.
  pose proof (Z.ggcd_gcd z 1) as Hg. rewrite Z.gcd_1_r in Hg.
  destruct (Z.ggcd z 1) as [g [aa bb]]. cbn [fst snd] in *. subst g.
  destruct Hd as [Ha Hb]. rewrite Z.mul_1_l in Ha, Hb. now subst.
Qed.

Lemma round64_comp (x y : Q) : (x == y)%Q -> round64 x = round64 y.
Proof.
  intros E. unfold round64. now rewrite (Qred_complete x y E).
Qed.



Lemma scaled_value (z j : Z) :
  0 <= j ->
  (inject_Z (z * 2 ^ j) * pow2 (- j) == inject_Z z)%Q.
Proof.
  intros Hj. unfold pow2.
  rewrite Z.max_l, Z.max_r by lia. rewrite Z.opp_involutive.
  assert (Hp : 0 < 2 ^ j) by (apply Z.pow_pos_nonneg; lia).
  unfold Qeq, inject_Z, Qmult. cbn [Qnum Qden].
  rewrite Pos.mul_1_l, Z2Pos.id by exact Hp.
  change (2 ^ 0) with 1. ring.
Qed.

(** Every positive integer below [2 ** 53] is its own rounding. *)
Lemma round64_pos_small_int (z : Z) :
  0 < z < 2 ^ 53 -> round64_pos z 1 = Finite (inject_Z z).
Proof.
  intros [Hz Hlt].
  assert (HL : 0 <= Z.log2 z <= 52).
  { split; [apply Z.log2_nonneg|].
    apply Z.lt_succ_r. apply (Z.log2_lt_pow2 z 53 Hz). exact Hlt. }
  pose proof (Z.log2_spec z Hz) as [Hlow _].
  unfold round64_pos, ilog2, scaled.
  change (Z.log2 1) with 0. rewrite Z.sub_0_r.
  rewrite (Z.max_l 0 (- Z.log2 z)), (Z.max_r 0 (Z.log2 z)) by lia.
  change (2 ^ 0) with 1. rewrite Z.mul_1_r, Z.mul_1_l.
  rewrite (proj2 (Z.leb_le _ _) Hlow).
  rewrite (Z.max_l (Z.log2 z - 52) (-1074)) by lia.
  rewrite (Z.max_r 0 (- (Z.log2 z - 52))), (Z.max_l 0 (Z.log2 z - 52)) by lia.
  change (2 ^ 0) with 1. rewrite Z.mul_1_r.
  replace (- (Z.log2 z - 52)) with (52 - Z.log2 z) by lia.
  set (j := 52 - Z.log2 z).
  assert (Hj : 0 <= j) by (unfold j; lia).
  rewrite !div_half_even_1.
  replace (Z.log2 z - 52) with (- j) by (unfold j; lia).
  assert (Hover : (2 ^ 1024 <=? z * 2 ^ j * 2 ^ (- j)) = false).
  { apply Z.leb_gt. destruct (Z.eq_dec j 0) as [E|E].
    - rewrite E. change (2 ^ (-0)) with 1. change (2 ^ 0) with 1.
      apply Z.lt_trans with (2 ^ 53); [lia|].
      apply Z.pow_lt_mono_r; lia.
    - rewrite (Z.pow_neg_r 2 (- j)) by lia.
      rewrite Z.mul_0_r. apply Z.pow_pos_nonneg; lia. }
  rewrite Hover.
  f_equal. rewrite (Qred_complete _ _ (scaled_value z j Hj)).
  apply Qred_inject_Z.
Qed.

Lemma round64_int (z : Z) :
  Z.abs z <= 2 ^ 53 -> round64 (inject_Z z) = Finite (inject_Z z).
Proof.
  assert (Pos : forall p, Z.pos p <= 2 ^ 53 ->
                          round64_pos (Z.pos p) 1 = Finite (inject_Z (Z.pos p))).
  { intros p Hp. destruct (Z.eq_dec (Z.pos p) (2 ^ 53)) as [E|E].
    - rewrite E. vm_compute. reflexivity.
    - apply round64_pos_small_int. lia. }
  intros Hz. unfold round64. rewrite Qred_inject_Z.
  destruct z as [|p|p]; cbn [inject_Z Qnum Qden].
  - reflexivity.
  - apply Pos. lia.
  - rewrite Pos by lia. reflexivity.
Qed.

Lemma float_of_int_exact (z : Z) :
  Z.abs z <= 2 ^ 53 -> float_of_int z = Ret (Finite (inject_Z z)).
Proof.
  intros Hz. unfold float_of_int. now rewrite (round64_int z Hz).
Qed.

(** An integer from [2 ** 1024] on rounds to an infinity. *)
Lemma round64_pos_huge_int (z : Z) :
  2 ^ 1024 <= z -> round64_pos z 1 = Inf false.
Proof.
  intros Hz.
  assert (Hpos : 0 < z).
  { apply Z.lt_le_trans with (2 ^ 1024); [apply Z.pow_pos_nonneg; lia | exact Hz]. }
  assert (HL : 1024 <= Z.log2 z) by (apply Z.log2_le_pow2; assumption).
  pose proof (Z.log2_spec z Hpos) as [Hlow _].
  unfold round64_pos, ilog2, scaled.
  change (Z.log2 1) with 0. rewrite Z.sub_0_r.
  rewrite (Z.max_l 0 (- Z.log2 z)), (Z.max_r 0 (Z.log2 z)) by lia.
  change (2 ^ 0) with 1. rewrite Z.mul_1_r, Z.mul_1_l.
  rewrite (proj2 (Z.leb_le _ _) Hlow).
  rewrite (Z.max_l (Z.log2 z - 52) (-1074)) by lia.
  rewrite (Z.max_l 0 (- (Z.log2 z - 52))), (Z.max_r 0 (Z.log2 z - 52)) by lia.
  change (2 ^ 0) with 1. rewrite Z.mul_1_r, Z.mul_1_l.
  set (ex := Z.log2 z - 52) in *.
  assert (Hex : 0 < 2 ^ ex) by (apply Z.pow_pos_nonneg; unfold ex; lia).
  assert (Hsplit : 2 ^ Z.log2 z = 2 ^ ex * 2 ^ 52).
  { rewrite <- Z.pow_add_r by (unfold ex; lia). f_equal. unfold ex. lia. }
  assert (Hm : 2 ^ 52 <= div_half_even z (2 ^ ex)).
  { apply Z.le_trans with (z / 2 ^ ex); [|apply div_half_even_lower].
    apply Z.div_le_lower_bound; [exact Hex|]. rewrite <- Hsplit. exact Hlow. }
  replace (2 ^ 1024 <=? div_half_even z (2 ^ ex) * 2 ^ ex) with true; [reflexivity|].
  symmetry. apply Z.leb_le.
  apply Z.le_trans with (2 ^ Z.log2 z).
  - apply Z.pow_le_mono_r; lia.
  - rewrite Hsplit, (Z.mul_comm (2 ^ ex)). apply Z.mul_le_mono_nonneg_r; lia.
Qed.

Lemma float_of_int_bound (z : Z) (f : float) :
  float_of_int z = Ret f -> Z.abs z < 2 ^ 1024.
Proof.
  intros Hf. apply Z.lt_nge. intros Hbig. revert Hf.
  unfold float_of_int, round64. rewrite Qred_inject_Z.
  destruct z as [|p|p]; cbn [inject_Z Qnum Qden].
  - exfalso. revert Hbig. apply Z.lt_nge. apply Z.pow_pos_nonneg; lia.
  - rewrite round64_pos_huge_int by exact Hbig. discriminate.
  - rewrite round64_pos_huge_int by exact Hbig. discriminate.
Qed.

(** [float(z)] is a finite float when it returns. *)
Lemma float_of_int_finite (z : Z) (f : float) :
  float_of_int z = Ret f -> exists q, f = Finite q.
Proof.
  unfold float_of_int, round64.
  assert (Hpos : forall n d, exists b, round64_pos n d = Inf b
                                    \/ exists q, round64_pos n d = Finite q).
  { intros n d. exists false. unfold round64_pos.
    destruct (scaled n d (Z.max (ilog2 n d - 52) (-1074))) as [n' d'].
    destruct (2 ^ 1024 <=? _); [now left | right; eexists; reflexivity]. }
  destruct (Qnum (Qred (inject_Z z))) as [|n|n].
  - intros E. injection E as <-. now exists 0%Q.
  - destruct (Hpos (Z.pos n) (Z.pos (Qden (Qred (inject_Z z))))) as (b & [-> | (q & ->)]);
      [discriminate|]. intros E. injection E as <-. now exists q.
  - destruct (Hpos (Z.pos n) (Z.pos (Qden (Qred (inject_Z z))))) as (b & [-> | (q & ->)]);
      cbn [float_opp]; [discriminate|]. intros E. injection E as <-. now eexists.
Qed.

Lemma two_to_1024_below_the_str_limit : 2 ^ 1024 < 10 ^ max_str_digits.
Proof. vm_compute. reflexivity. Qed.

Lemma format_int_returns (z : Z) :
  Z.abs z < 2 ^ 1024 -> format_int z = Ret (str_int z).
Proof.
  intros Hz. unfold format_int.
  pose proof two_to_1024_below_the_str_limit as Hlim.
  destruct (Z.leb_spec (10 ^ max_str_digits) (Z.abs z)) as [Hbig|_]; [|reflexivity].
  exfalso. revert Hz Hlim Hbig.
  generalize (2 ^ 1024) (10 ^ max_str_digits) (Z.abs z). intros. lia.
Qed.

Lemma two_to_53_below_two_to_1024 : 2 ^ 53 < 2 ^ 1024.
Proof. apply Z.pow_lt_mono_r; lia. Qed.

(** The lower bound the binary logarithm gives, for a non-negative logarithm. *)
Lemma ilog2_lower (n d : Z) :
  0 < n -> 0 < d -> 0 <= ilog2 n d -> d * 2 ^ ilog2 n d <= n.
Proof.
  intros Hn Hd. unfold ilog2, scaled.
  set (k := Z.log2 n - Z.log2 d).
  pose proof (Z.log2_spec n Hn) as [Hnl _].
  pose proof (Z.log2_spec d Hd) as [_ Hdu].
  pose proof (Z.log2_nonneg n). pose proof (Z.log2_nonneg d).
  destruct (Z.leb_spec (d * 2 ^ Z.max 0 k) (n * 2 ^ Z.max 0 (- k))) as [Ht|Ht]; intros He.
  - rewrite Z.max_r in Ht by exact He.
    rewrite (Z.max_l 0 (- k)) in Ht by lia.
    change (2 ^ 0) with 1 in Ht. lia.
  - assert (Hsplit : 2 ^ Z.log2 n = 2 ^ Z.succ (Z.log2 d) * 2 ^ (k - 1)).
    { rewrite <- Z.pow_add_r by lia. f_equal. unfold k. lia. }
    assert (Hp : 0 < 2 ^ (k - 1)) by (apply Z.pow_pos_nonneg; lia).
    apply Z.le_trans with (2 ^ Z.log2 n); [|exact Hnl].
    rewrite Hsplit. apply Z.mul_le_mono_nonneg_r; lia.
Qed.

Lemma pow2_value_le (m j T : Z) :
  0 <= j -> m <= T * 2 ^ j -> (inject_Z m * pow2 (- j) <= inject_Z T)%Q.
Proof.
  intros Hj Hm. unfold pow2.
  rewrite Z.max_l, Z.max_r by lia. rewrite Z.opp_involutive.
  assert (Hp : 0 < 2 ^ j) by (apply Z.pow_pos_nonneg; lia).
  unfold Qle, inject_Z, Qmult. cbn [Qnum Qden].
  rewrite Pos.mul_1_l, Z2Pos.id by exact Hp.
  change (2 ^ 0) with 1. lia.
Qed.

Lemma pow2_value_nonneg (m e : Z) : 0 <= m -> (0 <= inject_Z m * pow2 e)%Q.
Proof.
  intros Hm. unfold pow2, Qle, inject_Z, Qmult. cbn [Qnum Qden].
  assert (0 <= 2 ^ Z.max 0 e) by (apply Z.pow_nonneg; lia). nia.
Qed.

(** The rounding of a positive fraction does not pass an integer above
    it, when that integer is at most [2 ** 53]. *)
Lemma round64_pos_within (n d T : Z) :
  0 < n -> 0 < d -> T <= 2 ^ 53 -> n <= T * d ->
  exists q, round64_pos n d = Finite q /\ (0 <= q <= inject_Z T)%Q.
Proof.
  intros Hn Hd HT Hle.
  assert (HTpos : 0 < T) by nia.
  pose proof two_to_53_below_two_to_1024 as H53.
  unfold round64_pos.
  set (ex := Z.max (ilog2 n d - 52) (-1074)).
  destruct (Z.le_gt_cases ex 0) as [Hex|Hex].
  - unfold scaled. rewrite (Z.max_r 0 (- ex)), (Z.max_l 0 ex) by lia.
    change (2 ^ 0) with 1. rewrite Z.mul_1_r.
    set (j := - ex). assert (Hj : 0 <= j) by (unfold j; lia).
    assert (Hp : 0 < 2 ^ j) by (apply Z.pow_pos_nonneg; lia).
    set (m := div_half_even (n * 2 ^ j) d).
    assert (Hm : m <= T * 2 ^ j) by (apply div_half_even_upper; [exact Hd | nia]).
    assert (Hm0 : 0 <= m).
    { apply Z.le_trans with (n * 2 ^ j / d); [|apply div_half_even_lower].
      apply Z.div_pos; nia. }
    assert (Hover : (2 ^ 1024 <=? m * 2 ^ ex) = false).
    { apply Z.leb_gt. destruct (Z.eq_dec ex 0) as [E|E].
      - rewrite E. change (2 ^ 0) with 1. rewrite Z.mul_1_r.
        assert (j = 0) by (unfold j; lia). subst j. replace (- ex) with 0 in Hm by lia.
        change (2 ^ 0) with 1 in Hm. lia.
      - rewrite (Z.pow_neg_r 2 ex) by lia. rewrite Z.mul_0_r.
        apply Z.pow_pos_nonneg; lia. }
    rewrite Hover. eexists. split; [reflexivity|].
    rewrite Qred_correct. replace ex with (- j) by (unfold j; lia). split.
    + now apply pow2_value_nonneg.
    + now apply pow2_value_le.
  - assert (He : 53 <= ilog2 n d) by (unfold ex in Hex; lia).
    pose proof (ilog2_lower n d Hn Hd ltac:(lia)) as Hlow.
    assert (Hp53 : 0 < 2 ^ 53) by (apply Z.pow_pos_nonneg; lia).
    assert (Hmono : 2 ^ 53 <= 2 ^ ilog2 n d) by (apply Z.pow_le_mono_r; lia).
    assert (HT53 : T = 2 ^ 53) by nia.
    assert (Hn53 : n = 2 ^ 53 * d) by nia.
    assert (Hexact : 2 ^ ilog2 n d = 2 ^ 53) by nia.
    assert (He53 : ilog2 n d = 53).
    { apply (Z.pow_inj_r 2); lia. }
    assert (Hex1 : ex = 1) by (unfold ex; lia).
    rewrite Hex1. unfold scaled. cbn [Z.opp Z.max Z.compare].
    change (Z.max 0 (-1)) with 0. change (Z.max 0 1) with 1.
    change (2 ^ 0) with 1. change (2 ^ 1) with 2. rewrite Z.mul_1_r.
    replace n with (2 ^ 52 * (d * 2)) by (rewrite Hn53; change (2 ^ 53) with (2 ^ 52 * 2); ring).
    rewrite div_half_even_multiple by lia.
    replace (2 ^ 1024 <=? 2 ^ 52 * 2) with false by (vm_compute; reflexivity).
    eexists. split; [reflexivity|]. rewrite HT53. vm_compute. split; discriminate.
Qed.

(** A rational within an integer bound of at most [2 ** 53] rounds to a
    finite float within that bound. *)
Lemma round64_within (x : Q) (T : Z) :
  T <= 2 ^ 53 -> (Qabs x <= inject_Z T)%Q ->
  exists q, round64 x = Finite q /\ (Qabs q <= inject_Z T)%Q.
Proof.
  intros HT Hx.
  assert (HT0 : (0 <= inject_Z T)%Q).
  { apply Qle_trans with (Qabs x); [apply Qabs_nonneg | exact Hx]. }
  rewrite <- (Qred_correct x) in Hx. unfold round64.
  destruct (Qred x) as [[|n|n] d]; cbn [Qnum Qden].
  - exists 0%Q. split; [reflexivity | exact HT0].
  - assert (Hle : Z.pos n <= T * Z.pos d).
    { unfold Qle, Qabs, inject_Z in Hx. cbn in Hx. lia. }
    destruct (round64_pos_within (Z.pos n) (Z.pos d) T) as (q & -> & Hq0 & HqT);
      try lia.
    exists q. split; [reflexivity|]. now rewrite Qabs_pos.
  - assert (Hle : Z.pos n <= T * Z.pos d).
    { unfold Qle, Qabs, inject_Z in Hx. cbn in Hx. lia. }
    destruct (round64_pos_within (Z.pos n) (Z.pos d) T) as (q & -> & Hq0 & HqT);
      try lia.
    exists (- q)%Q. split; [reflexivity|]. rewrite Qabs_opp. now rewrite Qabs_pos.
Qed.

(** *** [int] on a string and [str] on an integer *)

Lemma digit_range (c : ascii) (d : Z) : digit c = Some d -> 0 <= d <= 9.
Proof.
  unfold digit.
  destruct ((48 <=? nat_of_ascii c)%nat && (nat_of_ascii c <=? 57)%nat) eqn:H;
    [|discriminate].
  apply andb_true_iff in H. destruct H as [H1 H2].
  apply Nat.leb_le in H1, H2. intros E. injection E as <-. lia.
Qed.

Lemma digit_count_nonneg (s : string) : 0 <= digit_count s.
Proof.
  induction s as [|c r IH]; cbn [digit_count]; [lia|].
  destruct (digit c); lia.
Qed.

(** The value [digits] reads lies between its accumulator followed by
    zeros and by nines. *)
Lemma digits_bound (s : string) (acc z : Z) (after_digit : bool) :
  0 <= acc -> digits acc after_digit s = Some z ->
  acc * 10 ^ digit_count s <= z < (acc + 1) * 10 ^ digit_count s.
Proof.
  revert acc after_digit. induction s as [|c r IH]; intros acc after_digit Hacc.
  - cbn [digits digit_count]. destruct after_digit; [|discriminate].
    intros E. injection E as <-. change (10 ^ 0) with 1. lia.
  - cbn [digits digit_count]. destruct (digit c) as [d|] eqn:Hd.
    + pose proof (digit_range c d Hd) as Hr. intros E.
      destruct (IH (10 * acc + d) true ltac:(lia) E) as [Hlo Hhi].
      pose proof (digit_count_nonneg r) as Hc.
      rewrite Z.pow_add_r by lia. change (10 ^ 1) with 10.
      assert (Hp : 0 < 10 ^ digit_count r) by (apply Z.pow_pos_nonneg; lia).
      nia.
    + destruct (Ascii.eqb c underscore && after_digit); [|discriminate].
      apply IH. exact Hacc.
Qed.

Lemma unsigned_of_str_bound (s : string) (z : Z) :
  unsigned_of_str s = Some z -> 0 <= z < 10 ^ max_str_digits.
Proof.
  unfold unsigned_of_str. destruct (digits 0 false s) as [z'|] eqn:Hd; [|discriminate].
  destruct (Z.leb_spec (digit_count s) max_str_digits) as [Hc|Hc]; [|discriminate].
  intros E. injection E as <-.
  destruct (digits_bound s 0 z' false ltac:(lia) Hd) as [Hlo Hhi].
  split; [lia|].
  apply Z.lt_le_trans with (10 ^ digit_count s); [lia|].
  apply Z.pow_le_mono_r; [lia | exact Hc].
Qed.

(** What [int] reads in a text has at most [max_str_digits] digits. *)
Lemma int_of_str_bound (s : string) (z : Z) :
  int_of_str s = Some z -> Z.abs z < 10 ^ max_str_digits.
Proof.
  unfold int_of_str. destruct (strip s) as [|c r]; [discriminate|].
  destruct (Ascii.eqb c plus_sign); [|destruct (Ascii.eqb c minus_sign)].
  - intros E. apply unsigned_of_str_bound in E. lia.
  - destruct (unsigned_of_str r) as [u|] eqn:Hu; [|discriminate].
    cbn [option_map]. intros E. injection E as <-.
    apply unsigned_of_str_bound in Hu. lia.
  - intros E. apply unsigned_of_str_bound in E. lia.
Qed.

Lemma format_int_within_limit (z : Z) :
  Z.abs z < 10 ^ max_str_digits -> format_int z = Ret (str_int z).
Proof.
  intros Hz. unfold format_int.
  destruct (Z.leb_spec (10 ^ max_str_digits) (Z.abs z)) as [Hbig|_]; [|reflexivity].
  exfalso. revert Hz Hbig. generalize (10 ^ max_str_digits) (Z.abs z). intros. lia.
Qed.

Ltac eval_digit :=
  match goal with
  | |- context [digit ?c] =>
      let v := eval vm_compute in (digit c) in change (digit c) with v
  end; cbv iota beta.

Lemma digits_string_of_uint (u : Decimal.uint) (acc : Z) (after_digit : bool) :
  u <> Decimal.Nil ->
  digits acc after_digit (NilEmpty.string_of_uint u) = Some (uint_value u acc).
Proof.
  revert acc after_digit.
  induction u; intros acc after_digit Hu; [contradiction|..];
    cbn [NilEmpty.string_of_uint uint_value digits]; eval_digit;
    (destruct u; [reflexivity | apply IHu; discriminate ..]).
Qed.

Lemma uint_value_acc (u : Decimal.uint) (p : positive) :
  uint_value u (Z.pos p) = Z.pos (Pos.of_uint_acc u p).
Proof.
  revert p. induction u; intros p; cbn [uint_value Pos.of_uint_acc];
    [reflexivity | rewrite <- IHu; f_equal; lia ..].
Qed.

Lemma uint_value_of_uint (u : Decimal.uint) : uint_value u 0 = Z.of_N (Pos.of_uint u).
Proof.
  induction u; cbn [uint_value Pos.of_uint]; [reflexivity | exact IHu | ..];
    cbn [Z.of_N]; rewrite <- uint_value_acc; reflexivity.
Qed.

Lemma digits_to_uint (p : positive) :
  digits 0 false (NilEmpty.string_of_uint (Pos.to_uint p)) = Some (Z.pos p).
Proof.
  rewrite digits_string_of_uint by apply DecimalPos.Unsigned.to_uint_nonnil.
  now rewrite uint_value_of_uint, DecimalPos.Unsigned.of_to.
Qed.

Lemma rstrip_string_of_uint (u : Decimal.uint) :
  rstrip (NilEmpty.string_of_uint u) = NilEmpty.string_of_uint u.
Proof.
  induction u; cbn [NilEmpty.string_of_uint rstrip]; [reflexivity|..];
    rewrite IHu; destruct (NilEmpty.string_of_uint u); reflexivity.
Qed.

Lemma strip_string_of_uint (u : Decimal.uint) :
  strip (NilEmpty.string_of_uint u) = NilEmpty.string_of_uint u.
Proof.
  unfold strip.
  replace (lstrip (NilEmpty.string_of_uint u)) with (NilEmpty.string_of_uint u).
  - apply rstrip_string_of_uint.
  - destruct u; reflexivity.
Qed.

Lemma string_of_uint_to_uint (p : positive) :
  NilZero.string_of_uint (Pos.to_uint p) = NilEmpty.string_of_uint (Pos.to_uint p).
Proof.
  pose proof (DecimalPos.Unsigned.to_uint_nonnil p) as Hn.
  destruct (Pos.to_uint p); [contradiction | reflexivity ..].
Qed.

Lemma nzhead_has_no_leading_zero (d l : Decimal.uint) :
  Decimal.nzhead d <> Decimal.D0 l.
Proof.
  induction d; cbn [Decimal.nzhead]; try discriminate. exact IHd.
Qed.

(** The numeral of a positive number does not start with a zero. *)
Lemma to_uint_has_no_leading_zero (p : positive) (l : Decimal.uint) :
  Pos.to_uint p <> Decimal.D0 l.
Proof.
  intros E.
  pose proof (DecimalPos.Unsigned.to_of (Pos.to_uint p)) as Hfix.
  rewrite DecimalPos.Unsigned.of_to in Hfix. cbn [N.to_uint] in Hfix.
  rewrite E in Hfix. unfold Decimal.unorm in Hfix. cbn [Decimal.nzhead] in Hfix.
  destruct (Decimal.nzhead l) as [|u|u|u|u|u|u|u|u|u|u] eqn:Hl.
  - injection Hfix as ->. exact (DecimalPos.Unsigned.to_uint_nonzero p E).
  - exact (nzhead_has_no_leading_zero l u Hl).
  - discriminate Hfix.
  - discriminate Hfix.
  - discriminate Hfix.
  - discriminate Hfix.
  - discriminate Hfix.
  - discriminate Hfix.
  - discriminate Hfix.
  - discriminate Hfix.
  - discriminate Hfix.
Qed.

Lemma digit_count_leading (c : ascii) (r : string) (d z n : Z) :
  digit c = Some d -> 1 <= d ->
  digits 0 false (String c r) = Some z -> z < 10 ^ n ->
  digit_count (String c r) <= n.
Proof.
  intros Hd Hd1. cbn [digits digit_count]. rewrite Hd. intros Hz Hn.
  apply digits_bound in Hz; [|lia].
  pose proof (digit_count_nonneg r) as Hc.
  assert (Hp : 0 < 10 ^ digit_count r) by (apply Z.pow_pos_nonneg; lia).
  assert (Hn0 : 0 <= n).
  { destruct (Z.le_gt_cases 0 n) as [H|H]; [exact H|].
    rewrite Z.pow_neg_r in Hn by lia. nia. }
  assert (Hlt : 10 ^ digit_count r < 10 ^ n) by nia.
  apply Z.pow_lt_mono_r_iff in Hlt; lia.
Qed.

(** The numeral of a positive number below [10 ** n] has at most [n] digits. *)
Lemma digit_count_to_uint (p : positive) (n : Z) :
  0 <= n -> Z.pos p < 10 ^ n ->
  digit_count (NilEmpty.string_of_uint (Pos.to_uint p)) <= n.
Proof.
  intros Hn Hp.
  pose proof (digits_to_uint p) as Hd.
  pose proof (DecimalPos.Unsigned.to_uint_nonnil p) as Hnil.
  pose proof (to_uint_has_no_leading_zero p) as Hzero.
  destruct (Pos.to_uint p) as [|l|l|l|l|l|l|l|l|l|l];
    [contradiction | exfalso; exact (Hzero l eq_refl) | ..];
    cbn [NilEmpty.string_of_uint] in *.
  - apply (digit_count_leading _ _ 1 (Z.pos p) n); [reflexivity | lia | exact Hd | exact Hp].
  - apply (digit_count_leading _ _ 2 (Z.pos p) n); [reflexivity | lia | exact Hd | exact Hp].
  - apply (digit_count_leading _ _ 3 (Z.pos p) n); [reflexivity | lia | exact Hd | exact Hp].
  - apply (digit_count_leading _ _ 4 (Z.pos p) n); [reflexivity | lia | exact Hd | exact Hp].
  - apply (digit_count_leading _ _ 5 (Z.pos p) n); [reflexivity | lia | exact Hd | exact Hp].
  - apply (digit_count_leading _ _ 6 (Z.pos p) n); [reflexivity | lia | exact Hd | exact Hp].
  - apply (digit_count_leading _ _ 7 (Z.pos p) n); [reflexivity | lia | exact Hd | exact Hp].
  - apply (digit_count_leading _ _ 8 (Z.pos p) n); [reflexivity | lia | exact Hd | exact Hp].
  - apply (digit_count_leading _ _ 9 (Z.pos p) n); [reflexivity | lia | exact Hd | exact Hp].
Qed.

(** [int(str(z)) == z], for an integer [str] accepts. *)
Lemma int_of_str_str_int (z : Z) :
  Z.abs z < 10 ^ max_str_digits -> int_of_str (str_int z) = Some z.
Proof.
  intros Hz.
  assert (Hu : forall p, Z.pos p < 10 ^ max_str_digits ->
               unsigned_of_str (NilEmpty.string_of_uint (Pos.to_uint p)) = Some (Z.pos p)).
  { intros p Hp. unfold unsigned_of_str. rewrite digits_to_uint.
    now rewrite (proj2 (Z.leb_le _ _)
                   (digit_count_to_uint p max_str_digits ltac:(discriminate) Hp)). }
  destruct z as [|p|p]; [reflexivity|..]; unfold str_int, int_of_str;
    cbn [Z.to_int NilZero.string_of_int]; rewrite string_of_uint_to_uint.
  - rewrite strip_string_of_uint.
    specialize (Hu p ltac:(lia)).
    pose proof (DecimalPos.Unsigned.to_uint_nonnil p) as Hn.
    destruct (Pos.to_uint p); [contradiction | exact Hu ..].
  - unfold strip. cbn [lstrip]. change (isspace "-") with false. cbv iota.
    cbn [rstrip]. rewrite rstrip_string_of_uint.
    pose proof (DecimalPos.Unsigned.to_uint_nonnil p) as Hn.
    replace (match NilEmpty.string_of_uint (Pos.to_uint p) with
             | EmptyString => if isspace "-" then EmptyString else String "-" EmptyString
             | String a s => String "-" (String a s)
             end) with (String "-" (NilEmpty.string_of_uint (Pos.to_uint p)))
      by (destruct (Pos.to_uint p); [contradiction | reflexivity ..]).
    change (Ascii.eqb "-" plus_sign) with false.
    change (Ascii.eqb "-" minus_sign) with true. cbv iota.
    now rewrite (Hu p ltac:(lia)).
Qed.

(** ** The test of line 76 *)

Local Open Scope list_scope.
Local Open Scope Q_scope.

Lemma greater_true_iff (x y : Q) : Py.greater x y = true <-> y < x.
Proof.
  unfold Py.greater. rewrite negb_true_iff, <- not_true_iff_false, Qle_bool_iff.
  split; [apply Qnot_le_lt | apply Qlt_not_le].
Qed.

Lemma greater_false_iff (x y : Q) : Py.greater x y = false <-> x <= y.
Proof.
  unfold Py.greater. rewrite negb_false_iff. apply Qle_bool_iff.
Qed.


Lemma float_sub_comp (x x' y y' : Q) :
  x == x' -> y == y' -> float_sub (Finite x) (Finite y) = float_sub (Finite x') (Finite y').
Proof.
  intros Ex Ey. cbn [float_sub]. apply round64_comp. now rewrite Ex, Ey.
Qed.

Lemma float_sub_same (t : Q) : float_sub (Finite t) (Finite t) = Finite 0.
Proof.
  cbn [float_sub]. rewrite (round64_comp (t - t) 0) by ring. reflexivity.
Qed.

Lemma significant_change_true (a : Namespace) (td : float) :
  significant_change a td = true <-> test_of_line_76 a td = Ret true.
Proof.
  unfold significant_change.
  destruct (test_of_line_76 a td) as [[]|e]; split; congruence.
Qed.

(** Where the interval is at most [2 ** 53], line 76 subtracts it as it is. *)
Lemma deviation_exact_interval (a : Namespace) (delta : Q) :
  (Z.abs (interval a) <= 2 ^ 53)%Z ->
  deviation a (Finite delta)
  = Ret (float_abs (round64 (delta - inject_Z (interval a)))).
Proof.
  intros Hi. unfold deviation. now rewrite (float_of_int_exact _ Hi).
Qed.

(** Within the threshold, the test of line 76 is [False], for an
    interval and a threshold of at most [2 ** 53]. *)
Lemma test_within_threshold (a : Namespace) (delta : Q) :
  (Z.abs (interval a) <= 2 ^ 53)%Z -> (threshold a <= 2 ^ 53)%Z ->
  Qabs (delta - inject_Z (interval a)) <= inject_Z (threshold a) ->
  test_of_line_76 a (Finite delta) = Ret false.
Proof.
  intros Hi Ht Hd. unfold test_of_line_76.
  rewrite (deviation_exact_interval a delta Hi).
  destruct (round64_within _ _ Ht Hd) as (q & -> & Hq).
  cbn [float_abs float_gt_int]. f_equal. apply greater_false_iff. exact Hq.
Qed.

(** Beyond the threshold, the test of line 76 is [True], for an interval
    of at most [2 ** 53] and a difference that is a float. *)
Lemma test_beyond_threshold (a : Namespace) (delta : Q) :
  (Z.abs (interval a) <= 2 ^ 53)%Z ->
  is_binary64 (delta - inject_Z (interval a)) ->
  inject_Z (threshold a) < Qabs (delta - inject_Z (interval a)) ->
  test_of_line_76 a (Finite delta) = Ret true.
Proof.
  intros Hi Hb Hd. unfold test_of_line_76.
  rewrite (deviation_exact_interval a delta Hi), Hb.
  cbn [float_abs float_gt_int]. f_equal. apply greater_true_iff.
  now rewrite Qred_correct.
Qed.

Lemma change_message_returns (a : Namespace) (td : float) :
  (Z.abs (interval a) < 2 ^ 1024)%Z ->
  change_message a td
  = Ret ("Significant system time change detected: " ++ format_2f td
           ++ " seconds since last check (expected ~" ++ str_int (interval a) ++ "s)")%string.
Proof.
  intros Hi. unfold change_message. now rewrite (format_int_returns _ Hi).
Qed.

(** When line 76 can be evaluated, so can the f-string of lines 77-78. *)
Lemma change_message_after_test (a : Namespace) (td : float) (b : bool) :
  test_of_line_76 a td = Ret b -> exists msg, change_message a td = Ret msg.
Proof.
  unfold test_of_line_76, deviation.
  destruct (float_of_int (interval a)) as [f|e] eqn:Hf; [|discriminate].
  intros _. rewrite (change_message_returns a td (float_of_int_bound _ _ Hf)).
  eexists. reflexivity.
Qed.

Lemma is_alert_message (a : Namespace) (td : float) (msg : string) :
  change_message a td = Ret msg ->
  is_alert (logging_warning msg) = true
  /\ is_alert (print ("Warning: " ++ msg)%string) = true.
Proof.
  unfold change_message. destruct (format_int (interval a)); [|discriminate].
  intros E. injection E as <-. split; reflexivity.
Qed.

(** ** Alerts in a history *)

Lemma alerts_app (h1 h2 : list event) : alerts (h1 ++ h2) = alerts h1 ++ alerts h2.
Proof. apply filter_app. Qed.

Lemma alerts_pair (h : list event) (a : Namespace) (td : float) (msg : string) :
  change_message a td = Ret msg ->
  alerts ((h ++ [logging_warning msg]) ++ [print ("Warning: " ++ msg)%string])
  = alerts h ++ [logging_warning msg; print ("Warning: " ++ msg)%string].
Proof.
  intros Hm. destruct (is_alert_message a td msg Hm) as [Hw Hp].
  rewrite !alerts_app. unfold alerts at 2 3. cbn [filter].
  rewrite Hw, Hp. now rewrite <- app_assoc.
Qed.


Lemma alerts_assign (h : list event) (t : Q) :
  alerts (h ++ [assign_last_time t]) = alerts h.
Proof. rewrite alerts_app. cbn. apply app_nil_r. Qed.

Lemma alerts_sleep (h : list event) (n : Z) :
  alerts (h ++ [sleep n]) = alerts h.
Proof. rewrite alerts_app. cbn. apply app_nil_r. Qed.

(** ** One iteration, case by case *)

(** The wait of line 81 leaves the store as it is, but for its own record. *)
Lemma time_sleep_cases (answer : result unit) (secs : Z) (st : store) :
  (fst (time_sleep answer secs st) = Ret tt
   /\ snd (time_sleep answer secs st)
      = {| args := args st; last_time := last_time st;
           history := history st ++ [sleep secs] |}
   /\ answer = Ret tt /\ (0 <= secs <= longest_sleep)%Z)
  \/ (exists e, time_sleep answer secs st = (Raise e, st)
                /\ (answer = Raise e \/ (secs < 0)%Z \/ (longest_sleep < secs)%Z)).
Proof.
  unfold time_sleep, evaluate, call.
  destruct (Z.ltb_spec longest_sleep (Z.abs secs)) as [Hbig|Hbig].
  { right. eexists. split; [reflexivity|]. right. lia. }
  destruct (Z.ltb_spec secs 0) as [Hneg|Hneg].
  { right. eexists. split; [reflexivity|]. right. now left. }
  destruct answer as [[]|e].
  - left. repeat split; try assumption. lia.
  - right. exists e. split; [reflexivity | now left].
Qed.

Lemma time_sleep_returns (secs : Z) (st : store) :
  (0 <= secs <= longest_sleep)%Z ->
  time_sleep (Ret tt) secs st
  = (Ret tt, {| args := args st; last_time := last_time st;
                history := history st ++ [sleep secs] |}).
Proof.
  intros [H0 H1]. unfold time_sleep, call.
  rewrite (proj2 (Z.ltb_ge longest_sleep (Z.abs secs))) by lia.
  now rewrite (proj2 (Z.ltb_ge secs 0) H0).
Qed.

(** An iteration that raises no alert goes to the assignment and the wait. *)
Lemma loop_body_quiet (k : tick) (st : store) (t : Q) :
  now k = Ret t ->
  test_of_line_76 (args st) (float_sub (Finite t) (Finite (last_time st))) = Ret false ->
  loop_body k st
  = time_sleep (on_sleep k) (interval (args st))
      {| args := args st; last_time := t;
         history := history st ++ [assign_last_time t] |}.
Proof.
  intros Hnow Hq.
  unfold loop_body, bind, time_time, read_last_time, read_args, write_last_time,
    evaluate, ret.
  rewrite Hnow, Hq. reflexivity.
Qed.

(** An iteration that raises an alert, and whose alert calls return. *)
Lemma loop_body_alert (k : tick) (st : store) (t : Q) (msg : string) :
  now k = Ret t ->
  test_of_line_76 (args st) (float_sub (Finite t) (Finite (last_time st))) = Ret true ->
  change_message (args st) (float_sub (Finite t) (Finite (last_time st))) = Ret msg ->
  on_warning k = Ret tt -> on_print k = Ret tt ->
  loop_body k st
  = time_sleep (on_sleep k) (interval (args st))
      {| args := args st; last_time := t;
         history := ((history st ++ [logging_warning msg])
                       ++ [print ("Warning: " ++ msg)%string])
                      ++ [assign_last_time t] |}.
Proof.
  intros Hnow Hq Hm Hw Hp.
  unfold loop_body, bind, time_time, read_last_time, read_args, write_last_time,
    evaluate, call, ret.
  rewrite Hnow, Hq, Hm, Hw, Hp. reflexivity.
Qed.

(** An iteration only ever appends to the history, and never touches [args]. *)
Lemma loop_body_frame (k : tick) (st : store) :
  exists new,
    args (snd (loop_body k st)) = args st
    /\ history (snd (loop_body k st)) = history st ++ new.
Proof.
  assert (Hsleep : forall answer secs st0 new0,
             args st0 = args st -> history st0 = history st ++ new0 ->
             exists new, args (snd (time_sleep answer secs st0)) = args st
                         /\ history (snd (time_sleep answer secs st0)) = history st ++ new).
  { intros answer secs st0 new0 Ha Hh.
    destruct (time_sleep_cases answer secs st0) as [(_ & -> & _)|(e & -> & _)]; cbn [snd].
    - exists (new0 ++ [sleep secs]). cbn. now rewrite Hh, app_assoc.
    - now exists new0. }
  unfold loop_body, bind, time_time, read_last_time, read_args, write_last_time,
    evaluate, call, ret.
  destruct (now k) as [t|e]; cbn.
  2:{ exists []. now rewrite app_nil_r. }
  destruct (test_of_line_76 (args st) _) as [[]|e]; cbn.
  - destruct (change_message (args st) _) as [msg|e]; cbn.
    2:{ exists []. now rewrite app_nil_r. }
    destruct (on_warning k); cbn.
    2:{ exists []. now rewrite app_nil_r. }
    destruct (on_print k); cbn.
    2:{ eexists. split; reflexivity. }
    eapply Hsleep; [reflexivity|]. cbn. rewrite <- !app_assoc. reflexivity.
  - eapply Hsleep; [reflexivity|]. cbn. reflexivity.
  - exists []. now rewrite app_nil_r.
Qed.

(** ** The loop over several iterations *)

Lemma while_True_app (pre post : list tick) (st : store) :
  while_True (pre ++ post) st =
    match while_True pre st with
    | (Ret _, st') => while_True post st'
    | (Raise e, st') => (Raise e, st')
    end.
Proof.
  revert st. induction pre as [|k pre IH]; intros st; [reflexivity|].
  cbn [app while_True]. unfold bind.
  destruct (loop_body k st) as [[[]|e] st1]; [apply IH | reflexivity].
Qed.

Lemma while_True_raise_stable (ticks more : list tick) (st st' : store) (e : exn) :
  while_True ticks st = (Raise e, st') ->
  while_True (ticks ++ more) st = (Raise e, st').
Proof.
  intros H. now rewrite while_True_app, H.
Qed.

Lemma while_True_args (ticks : list tick) (st : store) :
  args (snd (while_True ticks st)) = args st.
Proof.
  revert st. induction ticks as [|k rest IH]; intros st; [reflexivity|].
  cbn [while_True]. unfold bind.
  destruct (loop_body_frame k st) as (new & Ha & _).
  destruct (loop_body k st) as [[[]|e] st1]; cbn in *; [now rewrite IH | exact Ha].
Qed.

Lemma while_True_frame (ticks : list tick) (st : store) :
  exists new, history (snd (while_True ticks st)) = history st ++ new.
Proof.
  revert st. induction ticks as [|k rest IH]; intros st.
  - exists []. cbn. now rewrite app_nil_r.
  - cbn [while_True]. unfold bind.
    destruct (loop_body_frame k st) as (new & _ & Hh).
    destruct (loop_body k st) as [[[]|e] st1]; cbn [snd] in *.
    + destruct (IH st1) as (new' & Hh'). exists (new ++ new').
      now rewrite Hh', Hh, app_assoc.
    + now exists new.
Qed.

Lemma app_two_neq {A : Type} (l : list A) (x y : A) : l ++ [x; y] <> l.
Proof.
  intros E. apply (f_equal (@length A)) in E.
  rewrite length_app in E. cbn in E. lia.
Qed.

(** Iterations within the threshold add no alert to the history, for an
    interval and a threshold of at most [2 ** 53]. *)
Lemma quiet_iterations_add_no_alert (ticks : list tick) (st : store) :
  (Z.abs (interval (args st)) <= 2 ^ 53)%Z -> (threshold (args st) <= 2 ^ 53)%Z ->
  undisturbed (args st) (last_time st) ticks ->
  alerts (history (snd (while_True ticks st))) = alerts (history st).
Proof.
  revert st. induction ticks as [|k rest IH]; intros st Hi Ht Hu; [reflexivity|].
  cbn [while_True undisturbed] in *. unfold bind.
  destruct (now k) as [t|e] eqn:Hnow.
  - destruct Hu as [(delta & Hdelta & Hd) Hrest].
    pose proof (test_within_threshold (args st) delta Hi Ht Hd) as Hq.
    rewrite <- Hdelta in Hq.
    rewrite (loop_body_quiet k st t Hnow Hq).
    destruct (time_sleep_cases (on_sleep k) (interval (args st))
                {| args := args st; last_time := t;
                   history := history st ++ [assign_last_time t] |})
      as [(Hr & Hs & _)|(e & Hs & _)].
    + destruct (time_sleep _ _ _) as [r st1]. cbn [fst snd] in *. subst r st1.
      rewrite IH; cbn [args last_time history]; try assumption.
      now rewrite alerts_sleep, alerts_assign.
    + rewrite Hs. cbn [snd history]. now rewrite alerts_assign.
  - unfold loop_body, bind, time_time. now rewrite Hnow.
Qed.

(** ** From the command line to the loop *)

Local Open Scope Z_scope.

Lemma check_positive_int_positive (z : Z) :
  0 < z -> check_positive_int (Int z) = Ret z.
Proof.
  intros Hz. unfold check_positive_int. cbn [Py.int].
  now rewrite (proj2 (Z.leb_gt z 0) Hz).
Qed.

Lemma check_positive_int_nonpositive (z : Z) :
  z <= 0 -> Z.abs z < 10 ^ max_str_digits ->
  check_positive_int (Int z) = Raise (ArgumentTypeError (invalid_positive_int (Int z))).
Proof.
  intros Hz Hlim. unfold check_positive_int, raise_invalid, invalid_positive_int.
  cbn [Py.int str format_value].
  now rewrite (proj2 (Z.leb_le z 0) Hz), (format_int_within_limit z Hlim).
Qed.

Lemma convert_int_bound (arg : argument Z) (raw : option string) (z : Z) :
  Z.abs (default arg) < 10 ^ max_str_digits ->
  convert_int arg raw = inl z -> Z.abs z < 10 ^ max_str_digits.
Proof.
  intros Hd. unfold convert_int. destruct raw as [s|].
  - destruct (int_of_str s) as [z'|] eqn:Hs; [|discriminate].
    intros E. injection E as <-. exact (int_of_str_bound s z' Hs).
  - intros E. injection E as <-. exact Hd.
Qed.

Lemma small_below_the_str_limit (z : Z) :
  Z.abs z <= 2 ^ 53 -> Z.abs z < 10 ^ max_str_digits.
Proof.
  intros Hz. pose proof two_to_1024_below_the_str_limit as H1.
  pose proof two_to_53_below_two_to_1024 as H2.
  revert Hz H1 H2. generalize (2 ^ 53) (2 ^ 1024) (10 ^ max_str_digits) (Z.abs z).
  intros. lia.
Qed.

(** What [parse_args] returns has at most [max_str_digits] digits. *)
Lemma parse_args_bound (c : argv) (a : Namespace) :
  parse_args setup_argparse c = inl a ->
  Z.abs (interval a) < 10 ^ max_str_digits /\ Z.abs (threshold a) < 10 ^ max_str_digits.
Proof.
  unfold parse_args.
  destruct (convert_int (interval_argument setup_argparse) (opt_interval c)) as [i|m] eqn:Hi;
    [|discriminate].
  destruct (convert_int (threshold_argument setup_argparse) (opt_threshold c)) as [t|m] eqn:Ht;
    [|discriminate].
  intros E. injection E as <-. cbn [interval threshold]. split.
  - apply (convert_int_bound (interval_argument setup_argparse) (opt_interval c) i);
      [apply (small_below_the_str_limit 1); discriminate | exact Hi].
  - apply (convert_int_bound (threshold_argument setup_argparse) (opt_threshold c) t);
      [apply (small_below_the_str_limit 5); discriminate | exact Ht].
Qed.

(** Validation leaves a namespace of positive values as it is. *)
Lemma main_valid (cmdline : argv) (a : Namespace) (s : startup) (ticks : list tick) :
  parse_args setup_argparse cmdline = inl a -> 0 < interval a -> 0 < threshold a ->
  main cmdline s ticks
  = match FileHandler s with
    | Ret _ => try_block a [addHandler (log_file a)] s ticks
    | Raise e => (Raises e, [])
    end.
Proof.
  intros Hp Hi Ht. unfold main. rewrite Hp. cbn zeta.
  rewrite (check_positive_int_positive _ Hi), (check_positive_int_positive _ Ht).
  now destruct a.
Qed.

(** A run that starts well is the loop from [running], then the handlers. *)
Lemma main_running (cmdline : argv) (a : Namespace) (t0 : Q)
  (logging_answer print_answer : result unit) (ticks : list tick) :
  parse_args setup_argparse cmdline = inl a -> 0 < interval a -> 0 < threshold a ->
  main cmdline (started_with t0 logging_answer print_answer) ticks =
    (fst (except_clauses (started_with t0 logging_answer print_answer)
            (fst (while_True ticks (running a t0)))),
     history (snd (while_True ticks (running a t0)))
       ++ snd (except_clauses (started_with t0 logging_answer print_answer)
                 (fst (while_True ticks (running a t0))))).
Proof.
  intros Hp Hi Ht. rewrite (main_valid cmdline a _ ticks Hp Hi Ht).
  unfold try_block, monitor, bind, read_args, call.
  cbn [FileHandler start_time start_info start_print started_with
         args last_time history app].
  fold (running a t0).
  destruct (while_True ticks (running a t0)) as [r st]. cbn [fst snd].
  now destruct (except_clauses _ r).
Qed.

Local Open Scope Q_scope.

(** ** The alert of one iteration, against the exact deviation *)

(** C1, as the program has it: in an iteration whose clock reading is
    [t], whose interval converts to a float and whose alert calls return,
    the loop emits the alert (one warning record to the log and one line
    to the console, with the same text) exactly when the float
    [abs(time_difference - interval)] that line 76 computes is greater
    than the threshold; when that float equals the threshold, or is below
    it, no alert is emitted.  For an interval and a threshold of at most
    [2 ** 53], with [delta] the measured [time_difference]: no alert is
    emitted when [|delta - interval| <= threshold], and the alert is
    emitted when [|delta - interval| > threshold] and [delta - interval]
    is itself a float. *)
Theorem alert_iff_deviation_exceeds_threshold
  (k : tick) (st : store) (t : Q) (d : float) :
  now k = Ret t -> on_warning k = Ret tt -> on_print k = Ret tt ->
  deviation (args st) (float_sub (Finite t) (Finite (last_time st))) = Ret d ->
  let time_difference := float_sub (Finite t) (Finite (last_time st)) in
  let st' := snd (loop_body k st) in
  (float_gt_int d (threshold (args st)) = true ->
   exists msg,
     change_message (args st) time_difference = Ret msg
     /\ alerts (history st')
        = alerts (history st) ++ [logging_warning msg; print ("Warning: " ++ msg)%string])
  /\ (float_gt_int d (threshold (args st)) = false ->
      alerts (history st') = alerts (history st))
  /\ (alerts (history st') <> alerts (history st)
      <-> float_gt_int d (threshold (args st)) = true)
  /\ (forall delta : Q,
         time_difference = Finite delta ->
         (Z.abs (interval (args st)) <= 2 ^ 53)%Z ->
         (threshold (args st) <= 2 ^ 53)%Z ->
         (Qabs (delta - inject_Z (interval (args st))) <= inject_Z (threshold (args st)) ->
          alerts (history st') = alerts (history st))
         /\ (inject_Z (threshold (args st)) < Qabs (delta - inject_Z (interval (args st))) ->
             is_binary64 (delta - inject_Z (interval (args st))) ->
             alerts (history st') <> alerts (history st))).
Proof.
  intros Hnow Hw Hp Hd time_difference st'.
  assert (Htest : test_of_line_76 (args st) time_difference
                  = Ret (float_gt_int d (threshold (args st)))).
  { unfold test_of_line_76. fold time_difference in Hd. now rewrite Hd. }
  assert (Loud : test_of_line_76 (args st) time_difference = Ret true ->
                 exists msg,
                   change_message (args st) time_difference = Ret msg
                   /\ alerts (history st')
                      = alerts (history st)
                          ++ [logging_warning msg; print ("Warning: " ++ msg)%string]).
  { intros Ht. destruct (change_message_after_test _ _ _ Ht) as (msg & Hm).
    exists msg. split; [exact Hm|].
    subst st'. rewrite (loop_body_alert k st t msg Hnow Ht Hm Hw Hp).
    destruct (time_sleep_cases (on_sleep k) (interval (args st))
                {| args := args st; last_time := t;
                   history := ((history st ++ [logging_warning msg])
                                 ++ [print ("Warning: " ++ msg)%string])
                                ++ [assign_last_time t] |})
      as [(_ & -> & _)|(e & -> & _)]; cbn [snd history];
      rewrite ?alerts_sleep, alerts_assign; exact (alerts_pair _ _ _ _ Hm). }
  assert (Quiet : test_of_line_76 (args st) time_difference = Ret false ->
                  alerts (history st') = alerts (history st)).
  { intros Ht. subst st'. rewrite (loop_body_quiet k st t Hnow Ht).
    destruct (time_sleep_cases (on_sleep k) (interval (args st))
                {| args := args st; last_time := t;
                   history := history st ++ [assign_last_time t] |})
      as [(_ & -> & _)|(e & -> & _)]; cbn [snd history];
      now rewrite ?alerts_sleep, alerts_assign. }
  split; [|split; [|split]].
  - intros Hb. apply Loud. now rewrite Htest, Hb.
  - intros Hb. apply Quiet. now rewrite Htest, Hb.
  - split.
    + intros Hne. destruct (float_gt_int d (threshold (args st))) eqn:Hb; [reflexivity|].
      exfalso. apply Hne. apply Quiet. now rewrite Htest.
    + intros Hb. destruct Loud as (msg & _ & ->); [now rewrite Htest, Hb|].
      apply app_two_neq.
  - intros delta Hdelta Hi Ht. split.
    + intros Hin. apply Quiet. rewrite Hdelta.
      now apply test_within_threshold.
    + intros Hout Hb. destruct Loud as (msg & _ & ->).
      * rewrite Hdelta. now apply test_beyond_threshold.
      * apply app_two_neq.
Qed.

(** C1, at a concrete input: interval 1, threshold 5, readings 10 s apart. *)
Lemma alert_iff_deviation_exceeds_threshold_witness :
  now (reading 110) = Ret 110
  /\ on_warning (reading 110) = Ret tt
  /\ on_print (reading 110) = Ret tt
  /\ deviation (args (idle 100)) (float_sub (Finite 110) (Finite (last_time (idle 100))))
     = Ret (Finite 9)
  /\ (alerts (history (snd (loop_body (reading 110) (idle 100)))) <> alerts (history (idle 100))
      <-> float_gt_int (Finite 9) (threshold (args (idle 100))) = true).
Proof.
  split; [reflexivity|]. split; [reflexivity|]. split; [reflexivity|].
  split; [vm_compute; reflexivity|].
  apply (alert_iff_deviation_exceeds_threshold (reading 110) (idle 100) 110 (Finite 9));
    [reflexivity | reflexivity | reflexivity | vm_compute; reflexivity].
Defined.

(** C1 as stated fails: with interval and threshold [2 ** 53 + 3] and an
    elapsed time of 0 the deviation equals the threshold, and the loop
    alerts (line 76 reads the interval as the float [2 ** 53 + 4]); with
    interval and threshold 1 and an elapsed time of [- 2 ** -60] the
    deviation is above the threshold, and the loop does not alert (the
    difference [- 2 ** -60 - 1] is rounded to -1). *)
Lemma alert_differs_from_exact_deviation :
  (Qabs (0 - 0 - inject_Z 9007199254740995) == inject_Z 9007199254740995
   /\ alerts (history (snd (loop_body (reading 0)
                              {| args := configuration 9007199254740995 9007199254740995;
                                 last_time := 0; history := [] |})))
      <> [])
  /\ (float_sub (Finite 0) (Finite (1 # 1152921504606846976))
      = Finite (- (1 # 1152921504606846976))
      /\ inject_Z 1 < Qabs (- (1 # 1152921504606846976) - inject_Z 1)
      /\ alerts (history (snd (loop_body (reading 0)
                                 {| args := configuration 1 1;
                                    last_time := 1 # 1152921504606846976;
                                    history := [] |})))
         = []).
Proof.
  split; [split|split; [|split]].
  - reflexivity.
  - vm_compute. discriminate.
  - vm_compute. reflexivity.
  - reflexivity.
  - vm_compute. reflexivity.
Qed.

(** ** Validation of the command line *)

Local Open Scope Z_scope.

Lemma parse_args_supplied (c : argv) (i t : Z) :
  supplied 1 (opt_interval c) = Some i ->
  supplied 5 (opt_threshold c) = Some t ->
  exists a, parse_args setup_argparse c = inl a /\ interval a = i /\ threshold a = t.
Proof.
  unfold supplied, parse_args, convert_int. intros Hi Ht.
  destruct (opt_interval c) as [si|], (opt_threshold c) as [st|];
    try rewrite Hi; try rewrite Ht;
    try (injection Hi as <-); try (injection Ht as <-);
    eexists; repeat split.
Qed.

Lemma parse_args_rejects (c : argv) :
  supplied 1 (opt_interval c) = None \/ supplied 5 (opt_threshold c) = None ->
  exists message, parse_args setup_argparse c = inr message.
Proof.
  unfold supplied, parse_args, convert_int.
  destruct (opt_interval c) as [si|], (opt_threshold c) as [st|];
    intros [H|H]; try discriminate H; try rewrite H;
    try (destruct (int_of_str si)); eexists; reflexivity.
Qed.

(** C2, as the program has it: an interval and a threshold that [int]
    reads as positive integers (a text of at most 4300 digits; the
    decimal text of a positive integer below [10 ** 4300] first of all)
    become the configuration unchanged, and [main] goes on to open the
    log file and to the [try] statement; when both are integers and one
    is not positive, [main] reports the error to the log and the console,
    reads no clock, never waits, and the process exits with status 1;
    when one of them is not a text that [int] reads (not numeric, or of
    more than 4300 digits), the parser reports the error, nothing else is
    done, and the process exits with status 2. *)
Theorem configuration_is_checked_before_the_loop
  (root : bool) (c : argv) (s : startup) (ticks : list tick) :
  (forall i t : Z,
      supplied 1 (opt_interval c) = Some i ->
      supplied 5 (opt_threshold c) = Some t ->
      0 < i -> 0 < t ->
      exists a,
        interval a = i /\ threshold a = t
        /\ main c s ticks
           = match FileHandler s with
             | Ret _ => try_block a [addHandler (log_file a)] s ticks
             | Raise e => (Raises e, [])
             end)
  /\ (forall i t : Z,
         supplied 1 (opt_interval c) = Some i ->
         supplied 5 (opt_threshold c) = Some t ->
         i <= 0 \/ t <= 0 ->
         exists msg,
           script root c s ticks
           = (Some 1,
              (if root then root_warning else [])
                ++ [logging_error ("Error: " ++ msg)%string;
                    print ("Error: " ++ msg)%string]))
  /\ (supplied 1 (opt_interval c) = None \/ supplied 5 (opt_threshold c) = None ->
      exists message,
        script root c s ticks
        = (Some 2, (if root then root_warning else []) ++ [parser_error message]))
  /\ (forall i t : Z,
         opt_interval c = Some (str_int i) ->
         opt_threshold c = Some (str_int t) ->
         0 < i < 10 ^ max_str_digits -> 0 < t < 10 ^ max_str_digits ->
         exists a,
           interval a = i /\ threshold a = t
           /\ main c s ticks
              = match FileHandler s with
                | Ret _ => try_block a [addHandler (log_file a)] s ticks
                | Raise e => (Raises e, [])
                end).
Proof.
  assert (Accept : forall i t : Z,
             supplied 1 (opt_interval c) = Some i ->
             supplied 5 (opt_threshold c) = Some t ->
             0 < i -> 0 < t ->
             exists a,
               interval a = i /\ threshold a = t
               /\ main c s ticks
                  = match FileHandler s with
                    | Ret _ => try_block a [addHandler (log_file a)] s ticks
                    | Raise e => (Raises e, [])
                    end).
  { intros i t Hi Ht Pi Pt.
    destruct (parse_args_supplied c i t Hi Ht) as (a & Hp & <- & <-).
    exists a. repeat split. now apply main_valid. }
  split; [exact Accept|]. split; [|split].
  - intros i t Hi Ht Hbad.
    destruct (parse_args_supplied c i t Hi Ht) as (a & Hp & <- & <-).
    destruct (parse_args_bound c a Hp) as [Bi Bt].
    unfold script, main. rewrite Hp.
    destruct (Z_le_gt_dec (interval a) 0) as [Li|Gi].
    + rewrite (check_positive_int_nonpositive _ Li Bi). eexists. reflexivity.
    + rewrite (check_positive_int_positive (interval a)) by lia.
      destruct Hbad as [Hbad|Hbad]; [lia|].
      rewrite (check_positive_int_nonpositive _ Hbad Bt). eexists. reflexivity.
  - intros Hbad. destruct (parse_args_rejects c Hbad) as (message & Hp).
    exists message. unfold script, main. now rewrite Hp.
  - intros i t Hi Ht [Pi Bi] [Pt Bt]. apply Accept; try assumption.
    + rewrite Hi. apply int_of_str_str_int. now rewrite Z.abs_eq by lia.
    + rewrite Ht. apply int_of_str_str_int. now rewrite Z.abs_eq by lia.
Qed.

(** C2, at concrete inputs: [-i 2 -t 7], [--interval=-3] and [-i abc]. *)
Lemma configuration_is_checked_before_the_loop_witness :
  (exists a, interval a = 2 /\ threshold a = 7
             /\ main (options "2" (Some "7"%string)) (started_at 100) [reading 102]
                = try_block a [addHandler (log_file a)] (started_at 100) [reading 102])
  /\ (exists msg,
         script false (options "-3" None) (started_at 100) [reading 101]
         = (Some 1, [logging_error ("Error: " ++ msg)%string;
                     print ("Error: " ++ msg)%string]))
  /\ (exists message,
         script false (options "abc" None) (started_at 100) [reading 101]
         = (Some 2, [parser_error message])).
Proof.
  split; [|split].
  - apply (proj1 (configuration_is_checked_before_the_loop
                    false (options "2" (Some "7"%string)) (started_at 100) [reading 102])
             2 7); reflexivity.
  - apply (proj1 (proj2 (configuration_is_checked_before_the_loop
                    false (options "-3" None) (started_at 100) [reading 101]))
             (-3) 5); try reflexivity. left. discriminate.
  - apply (proj1 (proj2 (proj2 (configuration_is_checked_before_the_loop
                    false (options "abc" None) (started_at 100) [reading 101])))).
    left. reflexivity.
Defined.

(** C2 as stated fails: a non-numeric interval ends the process with
    status 2, from the parser, not with status 1. *)
Lemma nonnumeric_interval_exits_with_status_2 :
  int_of_str "abc" = None
  /\ script false (options "abc" None) (started_at 100) [reading 101]
     = (Some 2, [parser_error "argument -i/--interval: invalid int value: 'abc'"])
  /\ fst (script false (options "abc" None) (started_at 100) [reading 101]) <> Some 1.
Proof.
  split; [reflexivity|]. split; [reflexivity|]. discriminate.
Qed.

Local Open Scope Q_scope.

(** ** The first iteration *)

(** With an elapsed time of 0, line 76 compares the interval itself with
    the threshold, for an interval of at most [2 ** 53]. *)
Lemma zero_delta_test (a : Namespace) :
  (0 < interval a <= 2 ^ 53)%Z ->
  test_of_line_76 a (Finite 0)
  = Ret (Py.greater (inject_Z (interval a)) (inject_Z (threshold a))).
Proof.
  intros [H0 H1]. unfold test_of_line_76.
  assert (Hi : (Z.abs (interval a) <= 2 ^ 53)%Z) by (rewrite Z.abs_eq; lia).
  rewrite (deviation_exact_interval a 0 Hi).
  rewrite (round64_comp (0 - inject_Z (interval a)) (inject_Z (- interval a)))
    by (rewrite inject_Z_opp; ring).
  rewrite round64_int by (rewrite Z.abs_opp; exact Hi).
  cbn [float_abs float_gt_int]. f_equal.
  unfold Py.greater. f_equal. apply eq_true_iff_eq.
  rewrite !Qle_bool_iff.
  rewrite inject_Z_opp, Qabs_opp, Qabs_pos; [reflexivity|].
  change 0%Q with (inject_Z 0). rewrite <- Zle_Qle. lia.
Qed.

(** C3, as the program has it: the first test of line 76 comes before any
    wait and compares the first reading with the reading of line 68; so
    with [interval > threshold] and an interval of at most [2 ** 53], a
    run that starts well and whose first reading equals the starting one
    (elapsed time 0) emits the alert in its first iteration, before it
    has slept at all. *)
Theorem first_iteration_alerts_when_interval_exceeds_threshold
  (cmdline : argv) (a : Namespace) (t0 : Q) (k : tick) (rest : list tick) :
  parse_args setup_argparse cmdline = inl a ->
  (0 < threshold a)%Z -> (threshold a < interval a)%Z -> (interval a <= 2 ^ 53)%Z ->
  now k = Ret t0 -> on_warning k = Ret tt -> on_print k = Ret tt ->
  exists msg tail,
    change_message a (Finite 0) = Ret msg
    /\ snd (main cmdline (started_at t0) (k :: rest))
       = history (running a t0)
           ++ [logging_warning msg;
               print ("Warning: " ++ msg)%string;
               assign_last_time t0]
           ++ tail
    /\ filter is_sleep (history (running a t0)) = [].
Proof.
  intros Hp Ht Hlt Hle Hnow Hw Hpr.
  assert (Hi : (0 < interval a)%Z) by lia.
  change (started_at t0) with (started_with t0 (Ret tt) (Ret tt)).
  rewrite (main_running cmdline a t0 (Ret tt) (Ret tt) (k :: rest) Hp Hi Ht). cbn [snd].
  cbn [while_True]. unfold bind.
  assert (Hs : test_of_line_76 (args (running a t0))
                 (float_sub (Finite t0) (Finite (last_time (running a t0)))) = Ret true).
  { cbn [running args last_time]. rewrite float_sub_same.
    rewrite (zero_delta_test a (conj Hi Hle)). f_equal.
    apply greater_true_iff. now rewrite <- Zlt_Qlt. }
  destruct (change_message_after_test _ _ _ Hs) as (msg & Hm).
  pose proof (loop_body_alert k (running a t0) t0 msg Hnow Hs Hm Hw Hpr) as Hb.
  cbn [running args last_time] in Hm. rewrite float_sub_same in Hm.
  exists msg.
  rewrite Hb. clear Hb.
  match goal with |- context [time_sleep ?ans ?secs ?st0] =>
    destruct (time_sleep_cases ans secs st0) as [(Hr & Hst & _)|(e & Hst & _)];
    [destruct (time_sleep ans secs st0) as [r st1]; cbn [fst snd] in Hr, Hst; subst r st1
    |rewrite Hst]
  end.
  - match goal with |- context [while_True rest ?st] =>
      destruct (while_True_frame rest st) as (new & Hnew);
      destruct (while_True rest st) as [r st'] end.
    cbn [fst snd history running args] in *. rewrite Hnew.
    eexists. split; [exact Hm|]. split; [|reflexivity].
    rewrite <- !app_assoc. cbn [app]. reflexivity.
  - cbn [fst snd history running args]. eexists. split; [exact Hm|].
    split; [|reflexivity].
    rewrite <- !app_assoc. cbn [app]. reflexivity.
Qed.

(** C3, at a concrete input: interval 7, threshold 2. *)
Lemma first_iteration_alerts_when_interval_exceeds_threshold_witness :
  parse_args setup_argparse (options "7" (Some "2"%string))
  = inl {| interval := 7; threshold := 2; log_file := "system_time_monitor.log" |}
  /\ (0 < 2)%Z /\ (2 < 7)%Z /\ (7 <= 2 ^ 53)%Z
  /\ exists msg tail,
       change_message {| interval := 7; threshold := 2;
                         log_file := "system_time_monitor.log" |} (Finite 0) = Ret msg
       /\ snd (main (options "7" (Some "2"%string)) (started_at 100) [reading 100])
          = history (running {| interval := 7; threshold := 2;
                                log_file := "system_time_monitor.log" |} 100)
              ++ [logging_warning msg; print ("Warning: " ++ msg)%string;
                  assign_last_time 100]
              ++ tail
       /\ filter is_sleep
            (history (running {| interval := 7; threshold := 2;
                                 log_file := "system_time_monitor.log" |} 100)) = [].
Proof.
  split; [reflexivity|]. split; [reflexivity|]. split; [reflexivity|].
  split; [discriminate|].
  apply (first_iteration_alerts_when_interval_exceeds_threshold
           (options "7" (Some "2"%string))
           {| interval := 7; threshold := 2; log_file := "system_time_monitor.log" |}
           100 (reading 100) []); try reflexivity. discriminate.
Defined.

(** C3 as stated fails: with interval [2 ** 53 + 1] and threshold
    [2 ** 53] the interval is above the threshold, yet a first elapsed
    time of 0 raises no alert: line 76 reads the interval as the float
    [2 ** 53].  The iteration goes on to its assignment (and the run ends
    at the wait, which [time.sleep] refuses for being too long). *)
Lemma large_interval_first_iteration_is_silent :
  parse_args setup_argparse (options "9007199254740993" (Some "9007199254740992"%string))
  = inl (configuration 9007199254740993 9007199254740992)
  /\ (0 < 9007199254740992 < 9007199254740993)%Z
  /\ main (options "9007199254740993" (Some "9007199254740992"%string))
       (started_at 0) [reading 0]
     = (Returns 1,
        [addHandler "system_time_monitor.log"; assign_last_time 0;
         logging_info "System time monitor started.";
         print "System time monitor started.  Logging to system_time_monitor.log";
         assign_last_time 0;
         logging_error
           "An unexpected error occurred: timestamp too large to convert to C _PyTime_t";
         print "Error: timestamp too large to convert to C _PyTime_t"])
  /\ alerts (snd (main (options "9007199254740993" (Some "9007199254740992"%string))
                    (started_at 0) [reading 0])) = [].
Proof.
  split; [vm_compute; reflexivity|]. split; [split; reflexivity|].
  split; vm_compute; reflexivity.
Qed.

(** ** The two handlers *)

(** C4: when [KeyboardInterrupt] is raised anywhere in the loop of a run
    that started well, the program records the stop message in the log
    and on the console, does nothing more, [main] returns 0 and the
    process exits with status 0. *)
Theorem interrupt_stops_with_status_0
  (root : bool) (cmdline : argv) (a : Namespace) (t0 : Q)
  (ticks : list tick) (st : store) :
  parse_args setup_argparse cmdline = inl a -> (0 < interval a)%Z -> (0 < threshold a)%Z ->
  while_True ticks (running a t0) = (Raise KeyboardInterrupt, st) ->
  main cmdline (started_at t0) ticks
  = (Returns 0,
     history st ++ [logging_info "System time monitor stopped by user.";
                    print "System time monitor stopped."])
  /\ fst (script root cmdline (started_at t0) ticks) = Some 0%Z.
Proof.
  intros Hp Hi Ht Hrun.
  assert (Hm : main cmdline (started_at t0) ticks
               = (Returns 0,
                  history st ++ [logging_info "System time monitor stopped by user.";
                                 print "System time monitor stopped."])).
  { change (started_at t0) with (started_with t0 (Ret tt) (Ret tt)).
    rewrite (main_running cmdline a t0 (Ret tt) (Ret tt) ticks Hp Hi Ht), Hrun.
    reflexivity. }
  split; [exact Hm|].
  unfold script. rewrite Hm. reflexivity.
Qed.

(** C4, at a concrete input: the interrupt arrives during the second wait. *)
Lemma interrupt_stops_with_status_0_witness :
  parse_args setup_argparse no_options = inl defaults
  /\ (0 < interval defaults)%Z /\ (0 < threshold defaults)%Z
  /\ fst (while_True [reading 101; interrupted_in_sleep 102; reading 103]
            (running defaults 100))
     = Raise KeyboardInterrupt
  /\ fst (script false no_options (started_at 100)
            [reading 101; interrupted_in_sleep 102; reading 103])
     = Some 0%Z.
Proof.
  split; [reflexivity|]. split; [reflexivity|]. split; [reflexivity|].
  split; [vm_compute; reflexivity|].
  apply (interrupt_stops_with_status_0 false no_options defaults 100
           [reading 101; interrupted_in_sleep 102; reading 103]
           (snd (while_True [reading 101; interrupted_in_sleep 102; reading 103]
                   (running defaults 100))));
    [reflexivity | reflexivity | reflexivity | vm_compute; reflexivity].
Defined.

(** C5, as the program has it: when an exception (an instance of
    [Exception]; the [OverflowError] of line 76 and of the wait
    included) is raised anywhere in the loop of a run that started well,
    the loop is over: no later answer of the environment is consulted.
    The handler of lines 86-89 then reports the error to the log and to
    the console and [main] returns 1, provided its two calls return.  If
    its call of the logger raises, nothing is reported; if its [print]
    raises, the log alone has the report; either way the new exception
    leaves [main], and the process ends with status 1 when that
    exception is an instance of [Exception]. *)
Theorem failure_is_reported_and_fatal
  (root : bool) (cmdline : argv) (a : Namespace) (t0 : Q)
  (logging_answer print_answer : result unit)
  (ticks : list tick) (st : store) (e : exn) :
  parse_args setup_argparse cmdline = inl a -> (0 < interval a)%Z -> (0 < threshold a)%Z ->
  is_Exception e = true ->
  while_True ticks (running a t0) = (Raise e, st) ->
  (logging_answer = Ret tt -> print_answer = Ret tt ->
   main cmdline (started_with t0 logging_answer print_answer) ticks
   = (Returns 1,
      history st ++ [logging_error ("An unexpected error occurred: " ++ exn_str e)%string;
                     print ("Error: " ++ exn_str e)%string])
   /\ fst (script root cmdline (started_with t0 logging_answer print_answer) ticks)
      = Some 1%Z)
  /\ (forall e' : exn,
         logging_answer = Ret tt -> print_answer = Raise e' ->
         main cmdline (started_with t0 logging_answer print_answer) ticks
         = (Raises e',
            history st
              ++ [logging_error ("An unexpected error occurred: " ++ exn_str e)%string])
         /\ (is_Exception e' = true ->
             fst (script root cmdline (started_with t0 logging_answer print_answer) ticks)
             = Some 1%Z))
  /\ (forall e' : exn,
         logging_answer = Raise e' ->
         main cmdline (started_with t0 logging_answer print_answer) ticks
         = (Raises e', history st)
         /\ (is_Exception e' = true ->
             fst (script root cmdline (started_with t0 logging_answer print_answer) ticks)
             = Some 1%Z))
  /\ (forall more : list tick,
         script root cmdline (started_with t0 logging_answer print_answer) (ticks ++ more)
         = script root cmdline (started_with t0 logging_answer print_answer) ticks).
Proof.
  intros Hp Hi Ht He Hrun.
  assert (Hm : forall more,
             main cmdline (started_with t0 logging_answer print_answer) (ticks ++ more)
             = (fst (handler (started_with t0 logging_answer print_answer) 1
                       (logging_error ("An unexpected error occurred: " ++ exn_str e)%string)
                       (print ("Error: " ++ exn_str e)%string)),
                history st
                  ++ snd (handler (started_with t0 logging_answer print_answer) 1
                            (logging_error
                               ("An unexpected error occurred: " ++ exn_str e)%string)
                            (print ("Error: " ++ exn_str e)%string)))).
  { intros more.
    rewrite (main_running cmdline a t0 _ _ (ticks ++ more) Hp Hi Ht).
    rewrite (while_True_raise_stable ticks more _ _ _ Hrun).
    cbn [fst snd except_clauses]. destruct e; try discriminate He; reflexivity. }
  pose proof (Hm []) as Hm0. rewrite app_nil_r in Hm0.
  assert (Status : forall e', is_Exception e' = true -> exit_status (Raises e') = Some 1%Z).
  { intros e' He'. destruct e'; try discriminate He'; reflexivity. }
  split; [|split; [|split]].
  - intros -> ->.
    assert (Hmain : main cmdline (started_with t0 (Ret tt) (Ret tt)) ticks
                    = (Returns 1,
                       history st
                         ++ [logging_error
                               ("An unexpected error occurred: " ++ exn_str e)%string;
                             print ("Error: " ++ exn_str e)%string]))
      by (rewrite Hm0; reflexivity).
    split; [exact Hmain|]. unfold script. now rewrite Hmain.
  - intros e' -> ->.
    assert (Hmain : main cmdline (started_with t0 (Ret tt) (Raise e')) ticks
                    = (Raises e',
                       history st
                         ++ [logging_error
                               ("An unexpected error occurred: " ++ exn_str e)%string]))
      by (rewrite Hm0; reflexivity).
    split; [exact Hmain|]. intros He'. unfold script. rewrite Hmain. now apply Status.
  - intros e' ->.
    assert (Hmain : main cmdline (started_with t0 (Raise e') print_answer) ticks
                    = (Raises e', history st)).
    { rewrite Hm0. unfold handler. cbn [handler_logging started_with fst snd].
      now rewrite app_nil_r. }
    split; [exact Hmain|]. intros He'. unfold script. rewrite Hmain. now apply Status.
  - intros more. unfold script. now rewrite Hm, Hm0.
Qed.

(** C5, at a concrete input: the third clock reading fails. *)
Lemma failure_is_reported_and_fatal_witness :
  parse_args setup_argparse no_options = inl defaults
  /\ (0 < interval defaults)%Z /\ (0 < threshold defaults)%Z
  /\ is_Exception (Exception "clock unavailable") = true
  /\ fst (while_True [reading 101; reading 102; clock_fails "clock unavailable"]
            (running defaults 100))
     = Raise (Exception "clock unavailable")
  /\ fst (script false no_options (started_with 100 (Ret tt) (Ret tt))
            [reading 101; reading 102; clock_fails "clock unavailable"])
     = Some 1%Z.
Proof.
  split; [reflexivity|]. split; [reflexivity|]. split; [reflexivity|].
  split; [reflexivity|]. split; [vm_compute; reflexivity|].
  apply (proj1 (failure_is_reported_and_fatal false no_options defaults 100
                  (Ret tt) (Ret tt)
                  [reading 101; reading 102; clock_fails "clock unavailable"]
                  (snd (while_True [reading 101; reading 102; clock_fails "clock unavailable"]
                          (running defaults 100)))
                  (Exception "clock unavailable")
                  eq_refl eq_refl eq_refl eq_refl
                  ltac:(vm_compute; reflexivity)));
    reflexivity.
Defined.

(** C5 as stated fails: when the console is what fails (the [print] of
    line 78 raises, and so does the [print] of line 88), the error is
    reported to the log alone; [main] does not return 1, it is left by
    the exception of line 88. *)
Lemma console_failure_is_not_reported_to_the_console :
  main no_options (started_with 100 (Ret tt) (Raise (Exception "closed")))
    [print_fails 500 (Exception "closed"); reading 501]
  = (Raises (Exception "closed"),
     [addHandler "system_time_monitor.log"; assign_last_time 100;
      logging_info "System time monitor started.";
      print "System time monitor started.  Logging to system_time_monitor.log";
      logging_warning
        "Significant system time change detected: 400.00 seconds since last check (expected ~1s)";
      logging_error "An unexpected error occurred: closed"])
  /\ ~ In (print "Error: closed")
         (snd (main no_options (started_with 100 (Ret tt) (Raise (Exception "closed")))
                 [print_fails 500 (Exception "closed"); reading 501])).
Proof.
  assert (E : main no_options (started_with 100 (Ret tt) (Raise (Exception "closed")))
                [print_fails 500 (Exception "closed"); reading 501]
              = (Raises (Exception "closed"),
                 [addHandler "system_time_monitor.log"; assign_last_time 100;
                  logging_info "System time monitor started.";
                  print "System time monitor started.  Logging to system_time_monitor.log";
                  logging_warning
                    "Significant system time change detected: 400.00 seconds since last check (expected ~1s)";
                  logging_error "An unexpected error occurred: closed"]))
    by (vm_compute; reflexivity).
  split; [exact E|]. rewrite E. cbn [snd In].
  intros H. repeat (destruct H as [H|H]; [discriminate H|]). exact H.
Qed.

(** ** Undisturbed runs *)

(** C6, as the program has it: over any number of iterations in which
    every measured elapsed time stays within the threshold of the
    interval, the loop emits no alert, whatever else the environment
    does, for an interval and a threshold of at most [2 ** 53]. *)
Theorem undisturbed_run_never_alerts (ticks : list tick) (st : store) :
  (Z.abs (interval (args st)) <= 2 ^ 53)%Z -> (threshold (args st) <= 2 ^ 53)%Z ->
  undisturbed (args st) (last_time st) ticks ->
  alerts (history (snd (while_True ticks st))) = alerts (history st).
Proof.
  apply quiet_iterations_add_no_alert.
Qed.

(** C6, at a concrete input: three iterations one second apart. *)
Lemma undisturbed_run_never_alerts_witness :
  (Z.abs (interval (args (idle 100))) <= 2 ^ 53)%Z
  /\ (threshold (args (idle 100)) <= 2 ^ 53)%Z
  /\ undisturbed (args (idle 100)) (last_time (idle 100)) [reading 101; reading 102; reading 103]
  /\ alerts (history (snd (while_True [reading 101; reading 102; reading 103] (idle 100))))
     = alerts (history (idle 100)).
Proof.
  assert (Hu : undisturbed (args (idle 100)) (last_time (idle 100))
                 [reading 101; reading 102; reading 103]).
  { cbn [undisturbed reading now]. repeat split;
      (exists 1; split; [vm_compute; reflexivity | apply Qle_bool_iff; reflexivity]). }
  split; [discriminate|]. split; [discriminate|]. split; [exact Hu|].
  apply (undisturbed_run_never_alerts [reading 101; reading 102; reading 103] (idle 100));
    [discriminate | discriminate | exact Hu].
Defined.

(** C6 as stated fails: with interval and threshold [2 ** 53 + 3], an
    elapsed time of 0 is within the threshold of the interval, and the
    iteration alerts: line 76 reads the interval as the float
    [2 ** 53 + 4]. *)
Lemma undisturbed_run_alerts_for_a_large_interval :
  undisturbed (configuration 9007199254740995 9007199254740995) 0 [reading 0]
  /\ alerts (history (snd (while_True [reading 0]
                             {| args := configuration 9007199254740995 9007199254740995;
                                last_time := 0; history := [] |})))
     = [logging_warning
          "Significant system time change detected: 0.00 seconds since last check (expected ~9007199254740995s)";
        print
          "Warning: Significant system time change detected: 0.00 seconds since last check (expected ~9007199254740995s)"].
Proof.
  split.
  - cbn [undisturbed reading now]. split; [|exact I].
    exists 0. split; [vm_compute; reflexivity | apply Qle_bool_iff; reflexivity].
  - vm_compute. reflexivity.
Qed.

(** ** The loop state *)

Lemma last_cons {A : Type} (x d : A) (l : list A) : last (x :: l) d = last l x.
Proof.
  revert x d. induction l as [|y l IH]; intros x d; [reflexivity|].
  change (last (x :: y :: l) d) with (last (y :: l) d).
  now rewrite (IH y d), (IH y x).
Qed.

(** An iteration that completes read the clock, then tested the
    difference with the [last_time] it started from and emitted the two
    alert records or nothing, then assigned [last_time], then slept. *)
Lemma loop_body_completes (k : tick) (st st' : store) :
  loop_body k st = (Ret tt, st') ->
  exists t new,
    now k = Ret t
    /\ st' = {| args := args st; last_time := t;
                history := history st ++ new
                             ++ [assign_last_time t; sleep (interval (args st))] |}
    /\ filter is_assignment new = []
    /\ filter is_sleep new = []
    /\ on_sleep k = Ret tt
    /\ (0 <= interval (args st) <= longest_sleep)%Z
    /\ (significant_change (args st) (float_sub (Finite t) (Finite (last_time st))) = false ->
        new = [])
    /\ (significant_change (args st) (float_sub (Finite t) (Finite (last_time st))) = true ->
        exists msg,
          change_message (args st) (float_sub (Finite t) (Finite (last_time st))) = Ret msg
          /\ new = [logging_warning msg; print ("Warning: " ++ msg)%string]).
Proof.
  unfold loop_body, bind, time_time, read_last_time, read_args, write_last_time,
    evaluate, call, ret.
  destruct (now k) as [t|e]; [|discriminate].
  destruct (test_of_line_76 (args st) _) as [[]|e] eqn:Htest; [| |discriminate].
  - destruct (change_message (args st) _) as [msg|e] eqn:Hm; [|discriminate].
    destruct (on_warning k); [|discriminate].
    destruct (on_print k); [|discriminate].
    cbn [args last_time history].
    match goal with |- time_sleep ?ans ?secs ?st0 = _ -> _ =>
      destruct (time_sleep_cases ans secs st0) as [(Hr & Hst & Hans & Hsecs)|(e & Hst & _)];
      [|rewrite Hst; discriminate];
      destruct (time_sleep ans secs st0) as [r st1]; cbn [fst snd] in Hr, Hst; subst r st1
    end.
    intros E. injection E as <-.
    exists t, [logging_warning msg; print ("Warning: " ++ msg)%string].
    split; [reflexivity|]. split.
    { cbn [args last_time history]. f_equal. rewrite <- !app_assoc. reflexivity. }
    split; [reflexivity|]. split; [reflexivity|]. split; [exact Hans|].
    split; [exact Hsecs|]. unfold significant_change. rewrite Htest.
    split; [discriminate|].
    intros _. exists msg. split; [exact Hm | reflexivity].
  - cbn [args last_time history].
    match goal with |- time_sleep ?ans ?secs ?st0 = _ -> _ =>
      destruct (time_sleep_cases ans secs st0) as [(Hr & Hst & Hans & Hsecs)|(e & Hst & _)];
      [|rewrite Hst; discriminate];
      destruct (time_sleep ans secs st0) as [r st1]; cbn [fst snd] in Hr, Hst; subst r st1
    end.
    intros E. injection E as <-.
    exists t, []. split; [reflexivity|]. split.
    { cbn [args last_time history]. f_equal. rewrite <- !app_assoc. reflexivity. }
    split; [reflexivity|]. split; [reflexivity|]. split; [exact Hans|].
    split; [exact Hsecs|]. unfold significant_change. rewrite Htest.
    split; [reflexivity | discriminate].
Qed.

(** An iteration that is cut short either had not yet assigned
    [last_time], or was cut short by the wait, after the assignment. *)
Lemma loop_body_cut_short (k : tick) (st st' : store) (e : exn) :
  loop_body k st = (Raise e, st') ->
  (last_time st' = last_time st
   /\ filter is_assignment (history st') = filter is_assignment (history st)
   /\ filter is_sleep (history st') = filter is_sleep (history st))
  \/ (exists t, now k = Ret t
                /\ (on_sleep k = Raise e
                    \/ (interval (args st) < 0)%Z
                    \/ (longest_sleep < interval (args st))%Z)
                /\ last_time st' = t
                /\ filter is_assignment (history st')
                   = filter is_assignment (history st) ++ [assign_last_time t]
                /\ filter is_sleep (history st') = filter is_sleep (history st)).
Proof.
  unfold loop_body, bind, time_time, read_last_time, read_args, write_last_time,
    evaluate, call, ret.
  destruct (now k) as [t|e0].
  2:{ intros E. injection E as <- <-. left. repeat split. }
  destruct (test_of_line_76 (args st) _) as [[]|e0].
  3:{ intros E. injection E as <- <-. left. repeat split. }
  - destruct (change_message (args st) _) as [msg|e0].
    2:{ intros E. injection E as <- <-. left. repeat split. }
    destruct (on_warning k).
    2:{ intros E. injection E as <- <-. left. repeat split. }
    destruct (on_print k).
    2:{ cbn. intros E. injection E as <- <-. left. cbn.
        rewrite !filter_app. cbn. now rewrite !app_nil_r. }
    cbn [args last_time history].
    match goal with |- time_sleep ?ans ?secs ?st0 = _ -> _ =>
      destruct (time_sleep_cases ans secs st0) as [(Hr & _)|(e1 & Hst & Hwhy)];
      [intros E; rewrite E in Hr; discriminate Hr | rewrite Hst]
    end.
    intros E. injection E as <- <-. right. exists t. cbn [args last_time history] in *.
    split; [reflexivity|]. split; [exact Hwhy|]. split; [reflexivity|].
    rewrite !filter_app. cbn. now rewrite !app_nil_r.
  - cbn [args last_time history].
    match goal with |- time_sleep ?ans ?secs ?st0 = _ -> _ =>
      destruct (time_sleep_cases ans secs st0) as [(Hr & _)|(e1 & Hst & Hwhy)];
      [intros E; rewrite E in Hr; discriminate Hr | rewrite Hst]
    end.
    intros E. injection E as <- <-. right. exists t. cbn [args last_time history] in *.
    split; [reflexivity|]. split; [exact Hwhy|]. split; [reflexivity|].
    rewrite !filter_app. cbn. now rewrite !app_nil_r.
Qed.

(** Over completed iterations, [last_time] is assigned the readings, in
    order, and ends as the last of them. *)
Lemma while_True_completes (ticks : list tick) (st st' : store) :
  while_True ticks st = (Ret tt, st') ->
  exists readings : list Q,
    map now ticks = map Ret readings
    /\ filter is_assignment (history st')
       = filter is_assignment (history st) ++ map assign_last_time readings
    /\ filter is_sleep (history st')
       = filter is_sleep (history st) ++ map (fun _ => sleep (interval (args st))) readings
    /\ last_time st' = last readings (last_time st).
Proof.
  revert st. induction ticks as [|k rest IH]; intros st Hrun.
  - cbn in Hrun. injection Hrun as <-. exists []. cbn. now rewrite !app_nil_r.
  - cbn [while_True] in Hrun. unfold bind in Hrun.
    destruct (loop_body k st) as [[[]|e] st1] eqn:Hb; [|discriminate].
    destruct (loop_body_completes k st st1 Hb) as (t & new & Hnow & -> & Ha & Hs & _).
    destruct (IH _ Hrun) as (readings & Hmap & Hassign & Hsleep & Hlast).
    cbn [args last_time history] in *.
    exists (t :: readings). cbn [map]. rewrite Hnow, Hmap, Hassign, Hsleep, last_cons, Hlast.
    repeat split.
    + rewrite !filter_app, Ha. cbn. now rewrite <- app_assoc.
    + rewrite !filter_app, Hs. cbn. now rewrite <- app_assoc.
Qed.

(** C7: [main] enters the loop with [last_time] holding the reading of
    line 68; at every iteration boundary of the loop, [last_time] is the
    clock reading of the iteration just completed (the reading of line
    68 when none has completed), and it is what the next iteration
    starts from; an iteration assigns [last_time] exactly once, after
    the test (made against the [last_time] the iteration started from)
    and its alert and before the wait; an iteration cut short before
    its wait has not assigned it.  In a run of [main] whose
    iterations all completed, the values assigned to [last_time] are the
    reading of line 68 and then the reading of each iteration, in order. *)
Theorem last_time_is_previous_reading :
  (forall (cmdline : argv) (a : Namespace) (t0 : Q) (ticks : list tick),
      parse_args setup_argparse cmdline = inl a ->
      (0 < interval a)%Z -> (0 < threshold a)%Z ->
      main cmdline (started_at t0) ticks
      = (fst (except_clauses (started_at t0)
                (fst (while_True ticks
                        {| args := a; last_time := t0;
                           history :=
                             [addHandler (log_file a); assign_last_time t0;
                              logging_info "System time monitor started.";
                              print ("System time monitor started.  Logging to "
                                       ++ log_file a)%string] |}))),
         history (snd (while_True ticks
                         {| args := a; last_time := t0;
                            history :=
                              [addHandler (log_file a); assign_last_time t0;
                               logging_info "System time monitor started.";
                               print ("System time monitor started.  Logging to "
                                        ++ log_file a)%string] |}))
           ++ snd (except_clauses (started_at t0)
                     (fst (while_True ticks
                             {| args := a; last_time := t0;
                                history :=
                                  [addHandler (log_file a); assign_last_time t0;
                                   logging_info "System time monitor started.";
                                   print ("System time monitor started.  Logging to "
                                            ++ log_file a)%string] |})))))
  /\ (forall (ticks : list tick) (st st' : store),
         while_True ticks st = (Ret tt, st') ->
         last (map now ticks) (Ret (last_time st)) = Ret (last_time st'))
  /\ (forall (pre : list tick) (k : tick) (post : list tick) (st st' : store),
         while_True pre st = (Ret tt, st') ->
         while_True (pre ++ k :: post) st = while_True (k :: post) st'
         /\ last (map now pre) (Ret (last_time st)) = Ret (last_time st'))
  /\ (forall (k : tick) (st st' : store),
         loop_body k st = (Ret tt, st') ->
         exists t new,
           now k = Ret t
           /\ last_time st' = t
           /\ history st'
              = history st ++ new ++ [assign_last_time t; sleep (interval (args st))]
           /\ filter is_assignment new = []
           /\ filter is_sleep new = []
           /\ (significant_change (args st)
                 (float_sub (Finite t) (Finite (last_time st))) = false ->
               new = [])
           /\ (significant_change (args st)
                 (float_sub (Finite t) (Finite (last_time st))) = true ->
               exists msg,
                 change_message (args st)
                   (float_sub (Finite t) (Finite (last_time st))) = Ret msg
                 /\ new = [logging_warning msg; print ("Warning: " ++ msg)%string]))
  /\ (forall (k : tick) (st st' : store) (e : exn),
         loop_body k st = (Raise e, st') ->
         on_sleep k <> Raise e ->
         (0 <= interval (args st) <= longest_sleep)%Z ->
         last_time st' = last_time st
         /\ filter is_assignment (history st') = filter is_assignment (history st))
  /\ (forall (cmdline : argv) (a : Namespace) (t0 : Q) (ticks : list tick) (st' : store),
         parse_args setup_argparse cmdline = inl a ->
         (0 < interval a)%Z -> (0 < threshold a)%Z ->
         while_True ticks (running a t0) = (Ret tt, st') ->
         exists readings : list Q,
           map now ticks = map Ret readings
           /\ filter is_assignment (snd (main cmdline (started_at t0) ticks))
              = map assign_last_time (t0 :: readings)
           /\ last_time st' = last readings t0).
Proof.
  assert (Boundary : forall (ticks : list tick) (st st' : store),
             while_True ticks st = (Ret tt, st') ->
             last (map now ticks) (Ret (last_time st)) = Ret (last_time st')).
  { intros ticks st st' Hrun.
    destruct (while_True_completes ticks st st' Hrun) as (readings & Hmap & _ & _ & Hlast).
    rewrite Hmap, Hlast. generalize (last_time st). clear.
    induction readings as [|r rest IH]; intros t; [reflexivity|].
    cbn [map]. rewrite !last_cons. apply IH. }
  split; [|split; [|split; [|split; [|split]]]].
  - intros cmdline a t0 ticks Hp Hi Ht.
    change (started_at t0) with (started_with t0 (Ret tt) (Ret tt)).
    exact (main_running cmdline a t0 (Ret tt) (Ret tt) ticks Hp Hi Ht).
  - exact Boundary.
  - intros pre k post st st' Hrun. split; [|now apply Boundary].
    now rewrite while_True_app, Hrun.
  - intros k st st' Hb.
    destruct (loop_body_completes k st st' Hb)
      as (t & new & Hnow & -> & Ha & Hs & _ & _ & Hquiet & Hloud).
    exists t, new. repeat split; assumption.
  - intros k st st' e Hb Hne Hrange.
    destruct (loop_body_cut_short k st st' e Hb) as [(H & H' & _)|(t & _ & Hs & _)].
    + now split.
    + exfalso. destruct Hs as [Hs|[Hs|Hs]]; [contradiction | lia | lia].
  - intros cmdline a t0 ticks st' Hp Hi Ht Hrun.
    destruct (while_True_completes ticks _ st' Hrun) as (readings & Hmap & Hassign & _ & Hlast).
    exists readings. split; [exact Hmap|]. split; [|exact Hlast].
    change (started_at t0) with (started_with t0 (Ret tt) (Ret tt)).
    rewrite (main_running cmdline a t0 (Ret tt) (Ret tt) ticks Hp Hi Ht), Hrun.
    cbn [fst snd except_clauses]. now rewrite app_nil_r, Hassign.
Qed.

(** C7, at a concrete input: three completed iterations from a start at 100. *)
Lemma last_time_is_previous_reading_witness :
  fst (while_True [reading 101; reading 102; reading 103] (running defaults 100)) = Ret tt
  /\ last (map now [reading 101; reading 102; reading 103])
          (Ret (last_time (running defaults 100)))
     = Ret (last_time (snd (while_True [reading 101; reading 102; reading 103]
                              (running defaults 100))))
  /\ last_time (snd (while_True [reading 101; reading 102; reading 103]
                       (running defaults 100))) = 103.
Proof.
  split; [vm_compute; reflexivity|]. split; [|vm_compute; reflexivity].
  apply (proj1 (proj2 last_time_is_previous_reading)
           [reading 101; reading 102; reading 103] (running defaults 100)).
  vm_compute. reflexivity.
Defined.

(** ** Forward and backward jumps *)






(** C10: no iteration changes [args]: the interval, the threshold and the
    log file of the store are after any number of iterations what they
    were before; of the store, an iteration changes [last_time] and
    nothing else, and adds to what was done. *)
Theorem loop_leaves_configuration_unchanged :
  (forall (k : tick) (st : store),
      exists t new,
        snd (loop_body k st)
        = {| args := args st; last_time := t; history := history st ++ new |})
  /\ (forall (ticks : list tick) (st : store),
         args (snd (while_True ticks st)) = args st)
  /\ (forall (a : Namespace) (t0 : Q) (ticks : list tick),
         args (snd (while_True ticks (running a t0))) = a).
Proof.
  split; [|split].
  - intros k st. destruct (loop_body_frame k st) as (new & Ha & Hh).
    exists (last_time (snd (loop_body k st))), new.
    destruct (snd (loop_body k st)) as [a' l' h']. cbn in *. now subst.
  - apply while_True_args.
  - intros a t0 ticks. now rewrite while_True_args.
Qed.

(** C9: with interval 1 and threshold 5, an iteration that measures an
    elapsed time of 10 seconds emits the alert, and its text carries the
    delta as [10.00] and the expectation as [1s]. *)
Theorem scenario_delta_10_alerts (k : tick) (st : store) (t : Q) :
  interval (args st) = 1%Z -> threshold (args st) = 5%Z ->
  now k = Ret t -> t - last_time st == 10 ->
  on_warning k = Ret tt -> on_print k = Ret tt ->
  let msg :=
    "Significant system time change detected: 10.00 seconds since last check (expected ~1s)"%string in
  alerts (history (snd (loop_body k st)))
  = alerts (history st) ++ [logging_warning msg; print ("Warning: " ++ msg)%string]
  /\ contains "10.00" msg = true
  /\ contains "1s" msg = true.
Proof.
  intros Hi Ht Hnow Hd Hw Hp msg.
  split; [|split; reflexivity].
  assert (Htd : float_sub (Finite t) (Finite (last_time st)) = Finite 10).
  { cbn [float_sub]. rewrite (round64_comp _ 10 Hd). vm_compute. reflexivity. }
  assert (Htest : test_of_line_76 (args st)
                    (float_sub (Finite t) (Finite (last_time st))) = Ret true).
  { rewrite Htd. unfold test_of_line_76, deviation. rewrite Hi, Ht.
    vm_compute. reflexivity. }
  assert (Hm : change_message (args st)
                 (float_sub (Finite t) (Finite (last_time st))) = Ret msg).
  { rewrite Htd. unfold change_message. rewrite Hi. vm_compute. reflexivity. }
  rewrite (loop_body_alert k st t msg Hnow Htest Hm Hw Hp).
  destruct (time_sleep_cases (on_sleep k) (interval (args st))
              {| args := args st; last_time := t;
                 history := ((history st ++ [logging_warning msg])
                               ++ [print ("Warning: " ++ msg)%string])
                              ++ [assign_last_time t] |})
    as [(_ & -> & _)|(e & -> & _)]; cbn [snd history];
    rewrite ?alerts_sleep, alerts_assign; exact (alerts_pair _ _ _ _ Hm).
Qed.

(** C9, at a concrete input: readings 100 and 110 under the defaults. *)
Lemma scenario_delta_10_alerts_witness :
  interval (args (idle 100)) = 1%Z /\ threshold (args (idle 100)) = 5%Z
  /\ 110 - last_time (idle 100) == 10
  /\ alerts (history (snd (loop_body (reading 110) (idle 100))))
     = alerts (history (idle 100))
         ++ [logging_warning
               "Significant system time change detected: 10.00 seconds since last check (expected ~1s)";
             print
               "Warning: Significant system time change detected: 10.00 seconds since last check (expected ~1s)"].
Proof.
  split; [reflexivity|]. split; [reflexivity|]. split; [reflexivity|].
  apply (scenario_delta_10_alerts (reading 110) (idle 100) 110); reflexivity.
Defined.

(** ** Further properties of the program *)

(** *** [check_positive_int] (lines 23-42) *)

Local Open Scope Z_scope.

Lemma int_raises_ValueError (v : Py.value) (e : exn) :
  Py.int v = Raise e -> exists msg, e = ValueError msg.
Proof.
  destruct v as [z|s]; cbn [Py.int]; [discriminate|].
  destruct (int_of_str s); [discriminate|].
  intros E. injection E as <-. eexists. reflexivity.
Qed.

(** Lines 39 and 41 never return. *)
Lemma raise_invalid_raises (v : Py.value) (n : Z) : raise_invalid v <> Ret n.
Proof. unfold raise_invalid. destruct (format_value v); discriminate. Qed.

(** What lines 39 and 41 raise: the [ArgumentTypeError] that quotes the
    value, or the [ValueError] of the f-string for an integer of more
    than [max_str_digits] digits. *)
Lemma raise_invalid_cases (v : Py.value) (e : exn) :
  raise_invalid v = Raise e ->
  e = ArgumentTypeError (invalid_positive_int v)
  \/ (exists z, v = Int z /\ 10 ^ max_str_digits <= Z.abs z
                /\ e = ValueError digit_limit_message).
Proof.
  unfold raise_invalid, invalid_positive_int. destruct v as [z|s]; cbn [format_value str].
  - unfold format_int. destruct (Z.leb_spec (10 ^ max_str_digits) (Z.abs z)) as [Hbig|Hsmall].
    + intros E. injection E as <-. right. exists z. repeat split. exact Hbig.
    + intros E. injection E as <-. now left.
  - intros E. injection E as <-. now left.
Qed.

(** X1: whatever [check_positive_int] returns is positive, is the integer
    [int] reads in the value, and passes the check again. *)
Theorem check_positive_int_returns_positive (v : Py.value) (n : Z) :
  check_positive_int v = Ret n ->
  0 < n /\ Py.int v = Ret n /\ check_positive_int (Int n) = Ret n.
Proof.
  unfold check_positive_int. destruct (Py.int v) as [z|e] eqn:Hint.
  - destruct (z <=? 0) eqn:Hz; [intros E; now apply raise_invalid_raises in E|].
    intros E. injection E as <-. apply Z.leb_gt in Hz.
    split; [exact Hz|]. split; [reflexivity|].
    cbn [Py.int]. now rewrite (proj2 (Z.leb_gt z 0) Hz).
  - destruct e; try discriminate. intros E. now apply raise_invalid_raises in E.
Qed.

(** X1, at a concrete input: the text [" +1_000 "]. *)
Lemma check_positive_int_returns_positive_witness :
  check_positive_int (Str "  +1_000 ") = Ret 1000
  /\ 0 < 1000 /\ Py.int (Str "  +1_000 ") = Ret 1000
  /\ check_positive_int (Int 1000) = Ret 1000.
Proof.
  split; [reflexivity|].
  apply (check_positive_int_returns_positive (Str "  +1_000 ") 1000). reflexivity.
Defined.

(** X2: [check_positive_int] raises only for a value that [int] does not
    read or that is not above 0, and what it raises is the
    [ArgumentTypeError] whose text quotes the value as it was given; the
    [ValueError] of [int] never escapes.  The one other exception is the
    [ValueError] of the f-string of line 41, for an integer at or below
    [- 10 ** 4300], which has too many digits to be quoted. *)
Theorem check_positive_int_raises (v : Py.value) (e : exn) :
  check_positive_int v = Raise e ->
  ((exists msg, Py.int v = Raise (ValueError msg))
   \/ (exists z, Py.int v = Ret z /\ z <= 0))
  /\ (e = ArgumentTypeError (invalid_positive_int v)
      \/ (exists z, v = Int z /\ z <= - 10 ^ max_str_digits
                    /\ e = ValueError digit_limit_message)).
Proof.
  unfold check_positive_int.
  destruct (Py.int v) as [z|e0] eqn:Hint.
  - destruct (z <=? 0) eqn:Hz; [|discriminate]. apply Z.leb_le in Hz.
    intros E. split; [right; now exists z|].
    destruct (raise_invalid_cases v e E) as [->|(z' & -> & Hbig & ->)]; [now left|].
    right. exists z'. cbn [Py.int] in Hint. injection Hint as ->.
    repeat split. lia.
  - destruct (int_raises_ValueError v e0 Hint) as (msg & ->).
    intros E. split; [left; now exists msg|].
    destruct (raise_invalid_cases v e E) as [->|(z' & -> & _)]; [now left|].
    discriminate Hint.
Qed.

(** X2, at a concrete input: the integer 0. *)
Lemma check_positive_int_raises_witness :
  check_positive_int (Int 0)
  = Raise (ArgumentTypeError "Invalid positive int value: '0'")
  /\ ((exists msg, Py.int (Int 0) = Raise (ValueError msg))
      \/ (exists z, Py.int (Int 0) = Ret z /\ z <= 0))
  /\ (ArgumentTypeError "Invalid positive int value: '0'"
      = ArgumentTypeError (invalid_positive_int (Int 0))
      \/ (exists z, Int 0 = Int z /\ z <= - 10 ^ max_str_digits
                    /\ ArgumentTypeError "Invalid positive int value: '0'"
                       = ValueError digit_limit_message)).
Proof.
  split; [reflexivity|].
  apply (check_positive_int_raises
           (Int 0) (ArgumentTypeError "Invalid positive int value: '0'")).
  reflexivity.
Defined.

(** X3: an integer of at most 4300 digits and its decimal text are
    checked alike: the same value is returned, or the same exception
    with the same text. *)
Theorem check_positive_int_text_agrees_with_integer (z : Z) :
  Z.abs z < 10 ^ max_str_digits ->
  check_positive_int (Str (str_int z)) = check_positive_int (Int z).
Proof.
  intros Hz. unfold check_positive_int, raise_invalid. cbn [Py.int format_value].
  now rewrite (int_of_str_str_int z Hz), (format_int_within_limit z Hz).
Qed.

(** X3, at a concrete input: the integer -3. *)
Lemma check_positive_int_text_agrees_with_integer_witness :
  Z.abs (-3) < 10 ^ max_str_digits
  /\ check_positive_int (Str (str_int (-3))) = check_positive_int (Int (-3)).
Proof.
  assert (H : Z.abs (-3) < 10 ^ max_str_digits)
    by (apply small_below_the_str_limit; discriminate).
  split; [exact H|].
  apply (check_positive_int_text_agrees_with_integer (-3) H).
Defined.

(** *** The test of line 76 *)

Local Open Scope Q_scope.

Lemma float_gt_int_mono (x : float) (m n : Z) :
  (m <= n)%Z -> float_gt_int x n = true -> float_gt_int x m = true.
Proof.
  intros Hmn. destruct x as [q|b|]; cbn [float_gt_int]; try easy.
  rewrite !greater_true_iff. intros H.
  apply Qle_lt_trans with (inject_Z n); [|exact H]. now rewrite <- Zle_Qle.
Qed.

(** X5: lowering the threshold never hides a change: an elapsed time
    that fires the test under a threshold fires it under every smaller
    threshold, the interval being the same. *)
Theorem smaller_threshold_still_alerts (a b : Namespace) (delta : Q) :
  interval a = interval b -> (threshold a <= threshold b)%Z ->
  significant_change b delta = true ->
  significant_change a delta = true.
Proof.
  intros Hi Ht. unfold significant_change, test_of_line_76, deviation. rewrite Hi.
  destruct (float_of_int (interval b)) as [f|e]; [|easy].
  apply float_gt_int_mono. exact Ht.
Qed.

(** X5, at a concrete input: a delta of 10 under thresholds 5 and 2. *)
Lemma smaller_threshold_still_alerts_witness :
  interval {| interval := 1; threshold := 2; log_file := "a.log" |} = interval defaults
  /\ (threshold {| interval := 1; threshold := 2; log_file := "a.log" |}
      <= threshold defaults)%Z
  /\ significant_change defaults 10 = true
  /\ significant_change {| interval := 1; threshold := 2; log_file := "a.log" |} 10 = true.
Proof.
  split; [reflexivity|]. split; [discriminate|]. split; [vm_compute; reflexivity|].
  apply (smaller_threshold_still_alerts
           {| interval := 1; threshold := 2; log_file := "a.log" |} defaults 10);
    [reflexivity | discriminate | vm_compute; reflexivity].
Defined.

(** *** The loop (lines 72-81) *)

Lemma longest_sleep_is_exact : (longest_sleep <= 2 ^ 53)%Z.
Proof. discriminate. Qed.

(** With an interval the wait accepts, line 76 can be evaluated. *)
Lemma test_of_line_76_returns (a : Namespace) (td : float) :
  (0 <= interval a <= longest_sleep)%Z ->
  exists b, test_of_line_76 a td = Ret b.
Proof.
  intros [H0 H1]. unfold test_of_line_76, deviation.
  rewrite float_of_int_exact; [eexists; reflexivity|].
  pose proof longest_sleep_is_exact. rewrite Z.abs_eq by exact H0.
  revert H H1. generalize (2 ^ 53)%Z. intros. lia.
Qed.

Lemma loop_body_returns (k : tick) (st : store) :
  completes k -> (0 <= interval (args st) <= longest_sleep)%Z ->
  fst (loop_body k st) = Ret tt.
Proof.
  intros ((t & Hnow) & Hw & Hp & Hs) Hrange.
  destruct (test_of_line_76_returns (args st)
              (float_sub (Finite t) (Finite (last_time st))) Hrange) as ([] & Htest).
  - destruct (change_message_after_test _ _ _ Htest) as (msg & Hm).
    rewrite (loop_body_alert k st t msg Hnow Htest Hm Hw Hp), Hs.
    now rewrite time_sleep_returns.
  - rewrite (loop_body_quiet k st t Hnow Htest), Hs.
    now rewrite time_sleep_returns.
Qed.

Lemma while_True_returns (ticks : list tick) (st : store) :
  Forall completes ticks -> (0 <= interval (args st) <= longest_sleep)%Z ->
  fst (while_True ticks st) = Ret tt.
Proof.
  intros Hall. revert st. induction Hall as [|k rest Hk _ IH]; intros st Hrange;
    [reflexivity|].
  cbn [while_True]. unfold bind.
  pose proof (loop_body_returns k st Hk Hrange) as Hb.
  destruct (loop_body_frame k st) as (new & Ha & _).
  destruct (loop_body k st) as [[[]|e] st1]; [|discriminate Hb].
  cbn [snd] in Ha. apply IH. now rewrite Ha.
Qed.

(** X6: the loop has no exit of its own: under an interval that the wait
    accepts, as long as every call returns, [main] is still running,
    after any number of iterations, and the process has no exit status. *)
Theorem loop_runs_until_something_raises
  (root : bool) (cmdline : argv) (a : Namespace) (t0 : Q) (ticks : list tick) :
  parse_args setup_argparse cmdline = inl a ->
  (0 < interval a <= longest_sleep)%Z -> (0 < threshold a)%Z ->
  Forall completes ticks ->
  fst (main cmdline (started_at t0) ticks) = Running
  /\ fst (script root cmdline (started_at t0) ticks) = None.
Proof.
  intros Hp [Hi Hmax] Ht Hall.
  assert (Hm : fst (main cmdline (started_at t0) ticks) = Running).
  { change (started_at t0) with (started_with t0 (Ret tt) (Ret tt)).
    rewrite (main_running cmdline a t0 _ _ ticks Hp Hi Ht). cbn [fst].
    rewrite (while_True_returns ticks (running a t0) Hall); [reflexivity|].
    cbn [running args]. lia. }
  split; [exact Hm|].
  unfold script. destruct (main cmdline (started_at t0) ticks) as [o h].
  cbn [fst] in *. now subst o.
Qed.

Lemma reading_completes (t : Q) : completes (reading t).
Proof. split; [now exists t | repeat split]. Qed.

(** X6, at a concrete input: four iterations under the defaults, one of
    them across a jump of the clock. *)
Lemma loop_runs_until_something_raises_witness :
  parse_args setup_argparse no_options = inl defaults
  /\ (0 < interval defaults <= longest_sleep)%Z /\ (0 < threshold defaults)%Z
  /\ Forall completes [reading 101; reading 102; reading 500; reading 501]
  /\ fst (script false no_options (started_at 100)
            [reading 101; reading 102; reading 500; reading 501]) = None.
Proof.
  assert (Hall : Forall completes [reading 101; reading 102; reading 500; reading 501])
    by (repeat constructor; apply reading_completes).
  split; [reflexivity|]. split; [split; [reflexivity | discriminate]|].
  split; [reflexivity|]. split; [exact Hall|].
  apply (loop_runs_until_something_raises false no_options defaults 100
           [reading 101; reading 102; reading 500; reading 501]);
    [reflexivity | split; [reflexivity | discriminate] | reflexivity | exact Hall].
Defined.

Lemma map_constant {A B : Type} (b : B) (l : list A) :
  map (fun _ => b) l = repeat b (length l).
Proof. induction l as [|x l IH]; [reflexivity | cbn; now rewrite IH]. Qed.

(** X7: the loop waits once per completed iteration, never in an
    iteration that is cut short, and every wait is of the configured
    interval (line 81): after [n] completed iterations the waits in the
    history are [n] times [sleep interval], and an iteration cut short
    after them, with whatever the environment would have answered later,
    adds none. *)
Theorem one_wait_of_the_interval_per_iteration (pre : list tick) (st st1 : store) :
  while_True pre st = (Ret tt, st1) ->
  filter is_sleep (history st1)
  = filter is_sleep (history st) ++ repeat (sleep (interval (args st))) (length pre)
  /\ forall (k : tick) (post : list tick) (e : exn) (st2 : store),
       loop_body k st1 = (Raise e, st2) ->
       filter is_sleep (history (snd (while_True (pre ++ k :: post) st)))
       = filter is_sleep (history st) ++ repeat (sleep (interval (args st))) (length pre).
Proof.
  intros Hrun.
  assert (Hcount : filter is_sleep (history st1)
                   = filter is_sleep (history st)
                       ++ repeat (sleep (interval (args st))) (length pre)).
  { destruct (while_True_completes pre st st1 Hrun) as (readings & Hmap & _ & Hsleep & _).
    rewrite Hsleep, map_constant. do 2 f_equal.
    apply (f_equal (@length _)) in Hmap. now rewrite !length_map in Hmap. }
  split; [exact Hcount|].
  intros k post e st2 Hb.
  rewrite while_True_app, Hrun. cbn [while_True]. unfold bind. rewrite Hb. cbn [snd].
  rewrite <- Hcount.
  destruct (loop_body_cut_short k st1 st2 e Hb) as [(_ & _ & Hs)|(t & _ & _ & _ & _ & Hs)];
    exact Hs.
Qed.

(** X7, at a concrete input: two completed iterations, then one whose
    clock reading fails. *)
Lemma one_wait_of_the_interval_per_iteration_witness :
  fst (while_True [reading 101; reading 102] (idle 100)) = Ret tt
  /\ filter is_sleep
       (history (snd (while_True ([reading 101; reading 102]
                                    ++ clock_fails "clock unavailable" :: [reading 104])
                        (idle 100))))
     = [sleep 1; sleep 1].
Proof.
  split; [vm_compute; reflexivity|].
  apply (proj2 (one_wait_of_the_interval_per_iteration
                  [reading 101; reading 102] (idle 100)
                  (snd (while_True [reading 101; reading 102] (idle 100)))
                  ltac:(vm_compute; reflexivity))
           (clock_fails "clock unavailable") [reading 104]
           (Exception "clock unavailable")
           (snd (while_True [reading 101; reading 102] (idle 100)))).
  vm_compute. reflexivity.
Defined.

(** X8: a single jump of the clock is reported once: the iteration that
    measures it emits the alert and takes the new reading as [last_time]
    (line 80 is outside the [if]), so the iterations after it, regular
    again from that reading, add nothing; for an interval the wait
    accepts and a threshold of at most [2 ** 53]. *)
Theorem single_jump_alerts_once (k : tick) (rest : list tick) (st : store) (t : Q) :
  now k = Ret t -> on_warning k = Ret tt -> on_print k = Ret tt -> on_sleep k = Ret tt ->
  (0 <= interval (args st) <= longest_sleep)%Z -> (threshold (args st) <= 2 ^ 53)%Z ->
  significant_change (args st) (float_sub (Finite t) (Finite (last_time st))) = true ->
  undisturbed (args st) t rest ->
  exists msg,
    change_message (args st) (float_sub (Finite t) (Finite (last_time st))) = Ret msg
    /\ alerts (history (snd (while_True (k :: rest) st)))
       = alerts (history st)
           ++ [logging_warning msg; print ("Warning: " ++ msg)%string].
Proof.
  intros Hnow Hw Hp Hs Hrange Ht Hc Hu.
  apply significant_change_true in Hc.
  destruct (change_message_after_test _ _ _ Hc) as (msg & Hm).
  exists msg. split; [exact Hm|].
  cbn [while_True]. unfold bind.
  rewrite (loop_body_alert k st t msg Hnow Hc Hm Hw Hp), Hs.
  rewrite time_sleep_returns by exact Hrange.
  rewrite quiet_iterations_add_no_alert; cbn [args last_time history]; try assumption.
  - rewrite alerts_sleep, alerts_assign. exact (alerts_pair _ _ _ _ Hm).
  - pose proof longest_sleep_is_exact. rewrite Z.abs_eq by apply Hrange.
    destruct Hrange as [_ Hmax]. revert H Hmax. generalize (2 ^ 53)%Z. intros. lia.
Qed.

(** X8, at a concrete input: a jump from 100 to 500, then readings 501
    and 502. *)
Lemma single_jump_alerts_once_witness :
  significant_change (args (idle 100))
    (float_sub (Finite 500) (Finite (last_time (idle 100)))) = true
  /\ undisturbed (args (idle 100)) 500 [reading 501; reading 502]
  /\ exists msg,
       change_message (args (idle 100))
         (float_sub (Finite 500) (Finite (last_time (idle 100)))) = Ret msg
       /\ alerts (history (snd (while_True [reading 500; reading 501; reading 502]
                                  (idle 100))))
          = alerts (history (idle 100))
              ++ [logging_warning msg; print ("Warning: " ++ msg)%string].
Proof.
  assert (Hu : undisturbed (args (idle 100)) 500 [reading 501; reading 502]).
  { cbn [undisturbed reading now]. repeat split;
      (exists 1; split; [vm_compute; reflexivity | apply Qle_bool_iff; reflexivity]). }
  split; [vm_compute; reflexivity|]. split; [exact Hu|].
  apply (single_jump_alerts_once (reading 500) [reading 501; reading 502] (idle 100) 500);
    [reflexivity | reflexivity | reflexivity | reflexivity
    | split; discriminate | discriminate | vm_compute; reflexivity | exact Hu].
Defined.

(** *** [main] (lines 44-91) *)

Local Open Scope Z_scope.

Lemma time_sleep_handlers (answer : result unit) (secs : Z) (st : store) :
  filter is_handler (history (snd (time_sleep answer secs st)))
  = filter is_handler (history st).
Proof.
  destruct (time_sleep_cases answer secs st) as [(_ & -> & _)|(e & -> & _)];
    cbn [snd history]; [|reflexivity].
  rewrite filter_app. cbn. apply app_nil_r.
Qed.

Lemma loop_body_handlers (k : tick) (st : store) :
  filter is_handler (history (snd (loop_body k st))) = filter is_handler (history st).
Proof.
  unfold loop_body, bind, time_time, read_last_time, read_args, write_last_time,
    evaluate, call, ret.
  destruct (now k) as [t|e]; [|reflexivity].
  destruct (test_of_line_76 (args st) _) as [[]|e]; [| |reflexivity].
  - destruct (change_message (args st) _) as [msg|e]; [|reflexivity].
    destruct (on_warning k); [|reflexivity].
    destruct (on_print k).
    + cbn [args last_time history]. rewrite time_sleep_handlers. cbn [history].
      rewrite !filter_app. cbn. now rewrite !app_nil_r.
    + cbn. rewrite !filter_app. cbn. now rewrite !app_nil_r.
  - cbn [args last_time history]. rewrite time_sleep_handlers. cbn [history].
    rewrite !filter_app. cbn. now rewrite !app_nil_r.
Qed.

Lemma while_True_handlers (ticks : list tick) (st : store) :
  filter is_handler (history (snd (while_True ticks st))) = filter is_handler (history st).
Proof.
  revert st. induction ticks as [|k rest IH]; intros st; [reflexivity|].
  cbn [while_True]. unfold bind.
  pose proof (loop_body_handlers k st) as Hb.
  destruct (loop_body k st) as [[[]|e] st1]; cbn [snd] in *; [now rewrite IH | exact Hb].
Qed.

Lemma except_clauses_handlers (s : startup) (r : result unit) :
  filter is_handler (snd (except_clauses s r)) = [].
Proof.
  destruct r as [u|e]; [reflexivity|].
  destruct e; cbn [except_clauses is_Exception]; unfold handler;
    try (destruct (handler_logging s); [destruct (handler_print s)|]); reflexivity.
Qed.

Lemma try_block_handlers (a : Namespace) (h : list event) (s : startup) (ticks : list tick) :
  filter is_handler (snd (try_block a h s ticks)) = filter is_handler h.
Proof.
  unfold try_block.
  assert (Hb : forall r h', filter is_handler h' = filter is_handler h ->
               filter is_handler (snd (let '(o, ev) := except_clauses s r in (o, h' ++ ev)))
               = filter is_handler h).
  { intros r h' Hh. pose proof (except_clauses_handlers s r) as He.
    destruct (except_clauses s r) as [o ev]. cbn [snd] in *.
    now rewrite filter_app, He, app_nil_r. }
  destruct (start_time s) as [t0|e]; [|now apply Hb].
  unfold monitor, bind, call, read_args.
  destruct (start_info s);
    [|apply Hb; cbn; rewrite filter_app; cbn; apply app_nil_r].
  destruct (start_print s);
    [|apply Hb; cbn; rewrite !filter_app; cbn; now rewrite !app_nil_r].
  match goal with |- context [while_True ticks ?st] =>
    pose proof (while_True_handlers ticks st) as Hw;
    destruct (while_True ticks st) as [r st'] end.
  cbn [snd history] in Hw.
  apply Hb. rewrite Hw, !filter_app. cbn. now rewrite !app_nil_r.
Qed.

Lemma parse_args_log_file (c : argv) (a : Namespace) :
  parse_args setup_argparse c = inl a ->
  log_file a = match opt_log_file c with
               | Some f => f
               | None => "system_time_monitor.log"%string
               end.
Proof.
  unfold parse_args.
  destruct (convert_int _ (opt_interval c)); [|discriminate].
  destruct (convert_int _ (opt_threshold c)); [|discriminate].
  intros E. injection E as <-. reflexivity.
Qed.

(** X9: the log file is opened (lines 61-65) once, for the path given
    with [-l] or else for the default one, when the interval and the
    threshold are both positive integers and the file can be opened; a
    command line that is rejected opens no log file, and nothing in the
    loop or in the handlers opens one.  When the file cannot be opened,
    the exception of line 61 leaves [main], which has done nothing. *)
Theorem log_file_is_opened_once_for_a_valid_configuration
  (c : argv) (s : startup) (ticks : list tick) :
  filter is_handler (snd (main c s ticks))
  = match parse_args setup_argparse c with
    | inl a =>
        if (0 <? interval a) && (0 <? threshold a)
        then match FileHandler s with
             | Ret _ => [addHandler match opt_log_file c with
                                    | Some f => f
                                    | None => "system_time_monitor.log"%string
                                    end]
             | Raise _ => []
             end
        else []
    | inr _ => []
    end
  /\ (forall (a : Namespace) (e : exn),
         parse_args setup_argparse c = inl a -> 0 < interval a -> 0 < threshold a ->
         FileHandler s = Raise e ->
         main c s ticks = (Raises e, [])).
Proof.
  split.
  - destruct (parse_args setup_argparse c) as [a|message] eqn:Hp.
    2:{ unfold main. rewrite Hp. reflexivity. }
    destruct (parse_args_bound c a Hp) as [Bi Bt].
    destruct (0 <? interval a) eqn:Hi; [destruct (0 <? threshold a) eqn:Ht|]; cbn [andb].
    + apply Z.ltb_lt in Hi, Ht.
      rewrite (main_valid c a s ticks Hp Hi Ht).
      destruct (FileHandler s); [|reflexivity].
      rewrite try_block_handlers. cbn. now rewrite (parse_args_log_file c a Hp).
    + apply Z.ltb_lt in Hi. apply Z.ltb_ge in Ht.
      unfold main. rewrite Hp. cbn zeta.
      rewrite (check_positive_int_positive _ Hi), (check_positive_int_nonpositive _ Ht Bt).
      reflexivity.
    + apply Z.ltb_ge in Hi.
      unfold main. rewrite Hp. cbn zeta.
      rewrite (check_positive_int_nonpositive _ Hi Bi). reflexivity.
  - intros a e Hp Hi Ht Hf. now rewrite (main_valid c a s ticks Hp Hi Ht), Hf.
Qed.

(** X10: the validation of lines 52-58 checks the interval first and
    reports the value it refuses: a non-positive interval is the one
    reported whatever the threshold is, a non-positive threshold is
    reported only under a positive interval; the text is the same in the
    log and on the console. *)
Theorem validation_reports_the_first_refused_value
  (c : argv) (a : Namespace) (s : startup) (ticks : list tick) :
  parse_args setup_argparse c = inl a ->
  (interval a <= 0 ->
   main c s ticks
   = (Returns 1,
      [logging_error ("Error: " ++ invalid_positive_int (Int (interval a)));
       print ("Error: " ++ invalid_positive_int (Int (interval a)))]))
  /\ (0 < interval a -> threshold a <= 0 ->
      main c s ticks
      = (Returns 1,
         [logging_error ("Error: " ++ invalid_positive_int (Int (threshold a)));
          print ("Error: " ++ invalid_positive_int (Int (threshold a)))])).
Proof.
  intros Hp. destruct (parse_args_bound c a Hp) as [Bi Bt]. split.
  - intros Hi. unfold main. rewrite Hp. cbn zeta.
    rewrite (check_positive_int_nonpositive _ Hi Bi). reflexivity.
  - intros Hi Ht. unfold main. rewrite Hp. cbn zeta.
    rewrite (check_positive_int_positive _ Hi), (check_positive_int_nonpositive _ Ht Bt).
    reflexivity.
Qed.

(** X10, at a concrete input: [-i 0 -t -4]. *)
Lemma validation_reports_the_first_refused_value_witness :
  parse_args setup_argparse (options "0" (Some "-4"%string))
  = inl {| interval := 0; threshold := -4; log_file := "system_time_monitor.log" |}
  /\ 0 <= 0
  /\ main (options "0" (Some "-4"%string)) (started_at 100) [reading 101]
     = (Returns 1,
        [logging_error "Error: Invalid positive int value: '0'";
         print "Error: Invalid positive int value: '0'"]).
Proof.
  split; [reflexivity|]. split; [discriminate|].
  apply (proj1 (validation_reports_the_first_refused_value
                  (options "0" (Some "-4"%string))
                  {| interval := 0; threshold := -4; log_file := "system_time_monitor.log" |}
                  (started_at 100) [reading 101] eq_refl)).
  discriminate.
Defined.

Lemma handler_returns (s : startup) (code code' : Z) (logged printed : event) :
  fst (handler s code logged printed) = Returns code' -> code' = code.
Proof.
  unfold handler. destruct (handler_logging s); [destruct (handler_print s)|];
    cbn [fst]; congruence.
Qed.

Lemma except_clauses_returns (s : startup) (r : result unit) (code : Z) :
  fst (except_clauses s r) = Returns code ->
  (code = 0 /\ r = Raise KeyboardInterrupt)
  \/ (code = 1 /\ exists e, r = Raise e /\ is_Exception e = true).
Proof.
  destruct r as [u|e]; [discriminate|].
  destruct e; cbn [except_clauses is_Exception]; try discriminate;
    intros H; apply handler_returns in H; subst code;
    solve [left; now split | right; split; [reflexivity|]; eexists; now split].
Qed.

(** X11: [main] returns 0 or 1 and nothing else; it returns 0 only
    after a [KeyboardInterrupt] in the [try] statement, under a command
    line that passed the parser and the validation and with the log file
    open; it is still running only under such a command line. *)
Theorem main_outcomes (c : argv) (s : startup) (ticks : list tick) :
  (forall code : Z, fst (main c s ticks) = Returns code -> code = 0 \/ code = 1)
  /\ (fst (main c s ticks) = Returns 0 \/ fst (main c s ticks) = Running ->
      exists a : Namespace,
        parse_args setup_argparse c = inl a
        /\ 0 < interval a /\ 0 < threshold a
        /\ (exists u, FileHandler s = Ret u)
        /\ main c s ticks = try_block a [addHandler (log_file a)] s ticks).
Proof.
  assert (Try : forall a h code,
             fst (try_block a h s ticks) = Returns code -> code = 0 \/ code = 1).
  { intros a h code. unfold try_block.
    match goal with |- fst (let '(_, _) := ?x in _) = _ -> _ =>
      destruct x as [r h'] end.
    pose proof (except_clauses_returns s r code) as Hr.
    destruct (except_clauses s r) as [o ev]. cbn [fst] in *. intros E. destruct (Hr E) as [[-> _]|[-> _]]; [now left | now right]. }
  destruct (parse_args setup_argparse c) as [a|message] eqn:Hp.
  2:{ unfold main. rewrite Hp. cbn [fst]. split; [discriminate | intros [H|H]; discriminate]. }
  destruct (parse_args_bound c a Hp) as [Bi Bt].
  destruct (Z_le_gt_dec (interval a) 0) as [Li|Gi].
  { unfold main. rewrite Hp. cbn zeta.
    rewrite (check_positive_int_nonpositive _ Li Bi). cbn [fst].
    split; [intros code E; injection E as <-; now right | intros [H|H]; discriminate]. }
  destruct (Z_le_gt_dec (threshold a) 0) as [Lt|Gt].
  { unfold main. rewrite Hp. cbn zeta.
    rewrite (check_positive_int_positive (interval a)) by lia.
    rewrite (check_positive_int_nonpositive _ Lt Bt). cbn [fst].
    split; [intros code E; injection E as <-; now right | intros [H|H]; discriminate]. }
  rewrite (main_valid c a s ticks Hp) by lia.
  destruct (FileHandler s) as [u|e] eqn:Hf.
  - split; [apply Try|]. intros _. exists a. repeat split; try lia. now exists u.
  - cbn [fst]. split; [discriminate | intros [H|H]; discriminate].
Qed.

Local Open Scope Q_scope.

(** X12: when the threshold is at least the interval (and at most
    [2 ** 53]), no measured elapsed time from 0 to twice the interval
    fires the test; so the first iteration, which measures the time
    since line 68, raises no alert and goes straight to the assignment. *)
Theorem no_first_alert_when_threshold_covers_interval
  (cmdline : argv) (a : Namespace) (t0 t1 delta : Q) (k : tick) (rest : list tick) :
  parse_args setup_argparse cmdline = inl a ->
  (0 < interval a)%Z -> (interval a <= threshold a)%Z -> (threshold a <= 2 ^ 53)%Z ->
  now k = Ret t1 ->
  float_sub (Finite t1) (Finite t0) = Finite delta ->
  0 <= delta -> delta <= 2 * inject_Z (interval a) ->
  exists tail,
    snd (main cmdline (started_at t0) (k :: rest))
    = history (running a t0) ++ [assign_last_time t1] ++ tail.
Proof.
  intros Hp Hi Hit Hmax Hnow Hdelta Hlo Hhi.
  assert (Ht : (0 < threshold a)%Z) by lia.
  assert (Hq : test_of_line_76 a (Finite delta) = Ret false).
  { apply test_within_threshold; [rewrite Z.abs_eq; lia | exact Hmax |].
    apply Qabs_Qle_condition.
    rewrite Zle_Qle in Hit. rewrite Zlt_Qlt in Hi.
    change (inject_Z 0) with 0 in Hi. split; lra. }
  change (started_at t0) with (started_with t0 (Ret tt) (Ret tt)).
  rewrite (main_running cmdline a t0 _ _ (k :: rest) Hp Hi Ht). cbn [snd].
  cbn [while_True]. unfold bind.
  rewrite <- Hdelta in Hq.
  rewrite (loop_body_quiet k (running a t0) t1 Hnow Hq).
  match goal with |- context [time_sleep ?ans ?secs ?st0] =>
    destruct (time_sleep_cases ans secs st0) as [(Hr & Hst & _)|(e & Hst & _)];
    [destruct (time_sleep ans secs st0) as [r st1]; cbn [fst snd] in Hr, Hst; subst r st1
    |rewrite Hst]
  end.
  - match goal with |- context [while_True rest ?st] =>
      destruct (while_True_frame rest st) as (new & Hnew);
      destruct (while_True rest st) as [r st'] end.
    cbn [fst snd history running args] in *. rewrite Hnew.
    eexists. rewrite <- !app_assoc. reflexivity.
  - cbn [fst snd history running args]. eexists. rewrite <- !app_assoc. reflexivity.
Qed.

(** X12, at a concrete input: the defaults (interval 1, threshold 5) and
    a first reading equal to the starting one. *)
Lemma no_first_alert_when_threshold_covers_interval_witness :
  parse_args setup_argparse no_options = inl defaults
  /\ (0 < interval defaults)%Z /\ (interval defaults <= threshold defaults)%Z
  /\ (threshold defaults <= 2 ^ 53)%Z
  /\ float_sub (Finite 100) (Finite 100) = Finite 0
  /\ 0 <= 0 /\ 0 <= 2 * inject_Z (interval defaults)
  /\ exists tail,
       snd (main no_options (started_at 100) [reading 100])
       = history (running defaults 100) ++ [assign_last_time 100] ++ tail.
Proof.
  split; [reflexivity|]. split; [reflexivity|]. split; [discriminate|].
  split; [discriminate|]. split; [vm_compute; reflexivity|].
  split; [discriminate|]. split; [discriminate|].
  apply (no_first_alert_when_threshold_covers_interval
           no_options defaults 100 100 0 (reading 100) []);
    [reflexivity | reflexivity | discriminate | discriminate | reflexivity
    | vm_compute; reflexivity | discriminate | discriminate].
Defined.

(** X13: an exception raised by one of the calls of lines 68-70, before
    the loop is entered, is handled as one raised in the loop, by the
    handler of lines 86-89: when the handler's call of the logger
    returns, the error is in the log; then [main] returns 1 with the
    error on the console as well, or is left by the exception of the
    handler's [print].  No iteration runs and nothing waits. *)
Theorem failure_before_the_loop_is_reported
  (c : argv) (a : Namespace) (s : startup) (ticks : list tick) (e : exn) :
  parse_args setup_argparse c = inl a -> (0 < interval a)%Z -> (0 < threshold a)%Z ->
  FileHandler s = Ret tt ->
  start_time s = Raise e
  \/ (exists t0, start_time s = Ret t0
                 /\ (start_info s = Raise e
                     \/ (start_info s = Ret tt /\ start_print s = Raise e))) ->
  is_Exception e = true ->
  handler_logging s = Ret tt ->
  exists h,
    main c s ticks
    = (match handler_print s with
       | Ret _ => Returns 1
       | Raise e' => Raises e'
       end,
       h ++ logging_error ("An unexpected error occurred: " ++ exn_str e)%string
         :: match handler_print s with
            | Ret _ => [print ("Error: " ++ exn_str e)%string]
            | Raise _ => []
            end)
    /\ filter is_sleep h = []
    /\ alerts h = []
    /\ main c s ticks = main c s [].
Proof.
  intros Hp Hi Ht Hf Hfail He Hl.
  rewrite (main_valid c a s ticks Hp Hi Ht), (main_valid c a s [] Hp Hi Ht), Hf.
  unfold try_block, monitor, bind, call, read_args.
  assert (Hh : except_clauses s (Raise e)
             = (match handler_print s with
                | Ret _ => Returns 1
                | Raise e' => Raises e'
                end,
                logging_error ("An unexpected error occurred: " ++ exn_str e)%string
                  :: match handler_print s with
                     | Ret _ => [print ("Error: " ++ exn_str e)%string]
                     | Raise _ => []
                     end)).
  { destruct e; try discriminate He; cbn [except_clauses is_Exception];
      unfold handler; rewrite Hl; destruct (handler_print s); reflexivity. }
  destruct Hfail as [Hs|(t0 & Hs & [Hinfo|(Hinfo & Hprint)])].
  - exists [addHandler (log_file a)]. rewrite Hs, Hh. repeat split.
  - exists [addHandler (log_file a); assign_last_time t0]. rewrite Hs, Hinfo.
    cbn [history]. rewrite Hh. repeat split.
  - exists [addHandler (log_file a); assign_last_time t0;
            logging_info "System time monitor started."].
    rewrite Hs, Hinfo, Hprint. cbn [history app]. rewrite Hh. repeat split.
Qed.

(** X13, at a concrete input: the clock cannot be read at the start. *)
Lemma failure_before_the_loop_is_reported_witness :
  parse_args setup_argparse no_options = inl defaults
  /\ (0 < interval defaults)%Z /\ (0 < threshold defaults)%Z
  /\ start_time (clock_fails_at_start (Exception "no clock")) = Raise (Exception "no clock")
  /\ is_Exception (Exception "no clock") = true
  /\ main no_options (clock_fails_at_start (Exception "no clock")) [reading 101]
     = (Returns 1,
        [addHandler "system_time_monitor.log";
         logging_error "An unexpected error occurred: no clock";
         print "Error: no clock"]).
Proof.
  split; [reflexivity|]. split; [reflexivity|]. split; [reflexivity|].
  split; [reflexivity|]. split; [reflexivity|].
  destruct (failure_before_the_loop_is_reported no_options defaults
              (clock_fails_at_start (Exception "no clock")) [reading 101]
              (Exception "no clock")
              eq_refl eq_refl eq_refl eq_refl (or_introl eq_refl) eq_refl eq_refl)
    as (h & _ & _ & _ & ->).
  reflexivity.
Defined.

(** X14: the alert is written to the log before it is written to the
    console (lines 77-78): when the console line raises an exception, the
    warning is already in the log and [last_time] is not assigned; the
    exception is reported to the log, and then [main] returns 1 with the
    error on the console, or is left by the exception of the handler's
    own [print]. *)
Theorem console_failure_leaves_the_alert_in_the_log
  (c : argv) (a : Namespace) (t0 t : Q) (pre rest : list tick) (k : tick)
  (st : store) (e : exn) (print_answer : result unit) :
  parse_args setup_argparse c = inl a -> (0 < interval a)%Z -> (0 < threshold a)%Z ->
  while_True pre (running a t0) = (Ret tt, st) ->
  now k = Ret t ->
  significant_change a (float_sub (Finite t) (Finite (last_time st))) = true ->
  on_warning k = Ret tt -> on_print k = Raise e -> is_Exception e = true ->
  exists msg,
    change_message a (float_sub (Finite t) (Finite (last_time st))) = Ret msg
    /\ main c (started_with t0 (Ret tt) print_answer) (pre ++ k :: rest)
       = (match print_answer with
          | Ret _ => Returns 1
          | Raise e' => Raises e'
          end,
          history st
            ++ logging_warning msg
            :: logging_error ("An unexpected error occurred: " ++ exn_str e)%string
            :: match print_answer with
               | Ret _ => [print ("Error: " ++ exn_str e)%string]
               | Raise _ => []
               end)
    /\ last_time (snd (while_True (pre ++ k :: rest) (running a t0))) = last_time st.
Proof.
  intros Hp Hi Ht Hpre Hnow Hc Hw Hpr He.
  assert (Ha : args st = a).
  { pose proof (while_True_args pre (running a t0)) as H. now rewrite Hpre in H. }
  apply significant_change_true in Hc.
  destruct (change_message_after_test _ _ _ Hc) as (msg & Hm).
  exists msg. split; [exact Hm|].
  assert (Hrun : while_True (pre ++ k :: rest) (running a t0)
                 = (Raise e, {| args := args st; last_time := last_time st;
                                history := history st ++ [logging_warning msg] |})).
  { rewrite while_True_app, Hpre. cbn [while_True].
    unfold bind, loop_body, bind, time_time, read_last_time, read_args, evaluate, call.
    rewrite Hnow, Ha, Hc, Hm, Hw, Hpr. now rewrite <- Ha at 1. }
  split; [|now rewrite Hrun].
  rewrite (main_running c a t0 _ _ _ Hp Hi Ht), Hrun. cbn [fst snd history].
  destruct e; try discriminate He; cbn [except_clauses is_Exception];
    unfold handler; cbn [handler_logging handler_print started_with];
    destruct print_answer; cbn [fst snd]; now rewrite <- app_assoc.
Qed.

(** X14, at a concrete input: the console is closed when the jump from
    101 to 500 is to be printed, and stays closed. *)
Lemma console_failure_leaves_the_alert_in_the_log_witness :
  parse_args setup_argparse no_options = inl defaults
  /\ (0 < interval defaults)%Z /\ (0 < threshold defaults)%Z
  /\ fst (while_True [reading 101] (running defaults 100)) = Ret tt
  /\ is_Exception (Exception "closed") = true
  /\ last_time (snd (while_True
                       ([reading 101] ++ print_fails 500 (Exception "closed") :: [reading 501])
                       (running defaults 100)))
     = last_time (snd (while_True [reading 101] (running defaults 100))).
Proof.
  split; [reflexivity|]. split; [reflexivity|]. split; [reflexivity|].
  split; [vm_compute; reflexivity|]. split; [reflexivity|].
  destruct (console_failure_leaves_the_alert_in_the_log
              no_options defaults 100 500 [reading 101] [reading 501]
              (print_fails 500 (Exception "closed"))
              (snd (while_True [reading 101] (running defaults 100)))
              (Exception "closed") (Raise (Exception "closed"))
              eq_refl eq_refl eq_refl
              ltac:(vm_compute; reflexivity) eq_refl
              ltac:(vm_compute; reflexivity) eq_refl eq_refl eq_refl)
    as (msg & _ & _ & H).
  exact H.
Defined.

(** X15: an interval of [2 ** 1024] or more cannot be compared with an
    elapsed time: the test of line 76 raises [OverflowError] in the
    first iteration, which the handler of lines 86-89 reports; [main]
    returns 1 without an alert, an assignment in the loop or a wait. *)
Theorem interval_too_large_for_a_float
  (c : argv) (a : Namespace) (t0 t : Q) (k : tick) (rest : list tick) :
  parse_args setup_argparse c = inl a ->
  (2 ^ 1024 <= interval a)%Z -> (0 < threshold a)%Z ->
  now k = Ret t ->
  main c (started_at t0) (k :: rest)
  = (Returns 1,
     history (running a t0)
       ++ [logging_error "An unexpected error occurred: int too large to convert to float";
           print "Error: int too large to convert to float"]).
Proof.
  intros Hp Hbig Ht Hnow.
  assert (Hi : (0 < interval a)%Z).
  { assert (0 < 2 ^ 1024)%Z by (apply Z.pow_pos_nonneg; lia).
    revert H Hbig. generalize (2 ^ 1024)%Z. intros. lia. }
  assert (Hf : float_of_int (interval a)
               = Raise (OverflowError "int too large to convert to float")).
  { destruct (float_of_int (interval a)) as [f|e] eqn:E.
    - apply float_of_int_bound in E. rewrite Z.abs_eq in E by lia.
      revert E Hbig. generalize (2 ^ 1024)%Z. intros. lia.
    - unfold float_of_int in E. destruct (round64 (inject_Z (interval a)));
        try discriminate E. now injection E as <-. }
  change (started_at t0) with (started_with t0 (Ret tt) (Ret tt)).
  rewrite (main_running c a t0 _ _ (k :: rest) Hp Hi Ht).
  assert (Hb : loop_body k (running a t0)
               = (Raise (OverflowError "int too large to convert to float"),
                  running a t0)).
  { unfold loop_body, bind, time_time, read_last_time, read_args, evaluate,
      test_of_line_76, deviation.
    rewrite Hnow. cbn [running args]. now rewrite Hf. }
  cbn [while_True]. unfold bind. rewrite Hb. reflexivity.
Qed.

(** X15, at a concrete input: an interval of [2 ** 1024]. *)
Lemma interval_too_large_for_a_float_witness :
  (2 ^ 1024 <= interval (configuration (2 ^ 1024) 5))%Z
  /\ fst (main (options (str_int (2 ^ 1024)) None) (started_at 100) [reading 101])
     = Returns 1.
Proof.
  split; [apply Z.le_refl|].
  rewrite (interval_too_large_for_a_float
             (options (str_int (2 ^ 1024)) None) (configuration (2 ^ 1024) 5)
             100 101 (reading 101) []
             ltac:(vm_compute; reflexivity) (Z.le_refl _) eq_refl eq_refl).
  reflexivity.
Defined.

Lemma time_sleep_too_long (answer : result unit) (secs : Z) (st : store) :
  (longest_sleep < secs)%Z ->
  time_sleep answer secs st
  = (Raise (OverflowError "timestamp too large to convert to C _PyTime_t"), st).
Proof.
  intros Hbig. unfold time_sleep, evaluate.
  assert (H0 : (0 < longest_sleep)%Z) by reflexivity.
  now rewrite (proj2 (Z.ltb_lt longest_sleep (Z.abs secs))) by lia.
Qed.

Lemma test_of_line_76_raises (a : Namespace) (td : float) (e : exn) :
  test_of_line_76 a td = Raise e ->
  e = OverflowError "int too large to convert to float".
Proof.
  unfold test_of_line_76, deviation, float_of_int.
  destruct (round64 (inject_Z (interval a))); try discriminate.
  now intros E; injection E as <-.
Qed.

(** X16: an interval above [longest_sleep] cannot be waited for: the
    first iteration, its calls returning, ends with [OverflowError], at
    the wait of line 81 after the assignment or already at the test of
    line 76; the handler of lines 86-89 reports it and [main] returns 1
    without having waited. *)
Theorem interval_too_long_for_the_wait
  (c : argv) (a : Namespace) (t0 t : Q) (k : tick) (rest : list tick) :
  parse_args setup_argparse c = inl a ->
  (longest_sleep < interval a)%Z -> (0 < threshold a)%Z ->
  now k = Ret t -> on_warning k = Ret tt -> on_print k = Ret tt ->
  exists (h : list event) (msg : string),
    main c (started_at t0) (k :: rest)
    = (Returns 1,
       h ++ [logging_error ("An unexpected error occurred: " ++ msg)%string;
             print ("Error: " ++ msg)%string])
    /\ filter is_sleep h = []
    /\ (msg = "timestamp too large to convert to C _PyTime_t"%string
        \/ msg = "int too large to convert to float"%string).
Proof.
  intros Hp Hbig Ht Hnow Hw Hpr.
  assert (Hi : (0 < interval a)%Z).
  { assert (0 < longest_sleep)%Z by reflexivity. lia. }
  change (started_at t0) with (started_with t0 (Ret tt) (Ret tt)).
  rewrite (main_running c a t0 _ _ (k :: rest) Hp Hi Ht).
  cbn [while_True]. unfold bind.
  destruct (test_of_line_76 (args (running a t0))
              (float_sub (Finite t) (Finite (last_time (running a t0)))))
    as [[]|e] eqn:Htest.
  - destruct (change_message_after_test _ _ _ Htest) as (m & Hm).
    rewrite (loop_body_alert k (running a t0) t m Hnow Htest Hm Hw Hpr).
    rewrite time_sleep_too_long by exact Hbig.
    eexists. eexists. split; [reflexivity|]. split; [|now left].
    cbn [history running]. rewrite ?filter_app. reflexivity.
  - rewrite (loop_body_quiet k (running a t0) t Hnow Htest).
    rewrite time_sleep_too_long by exact Hbig.
    eexists. eexists. split; [reflexivity|]. split; [|now left].
    cbn [history running]. rewrite ?filter_app. reflexivity.
  - pose proof (test_of_line_76_raises _ _ _ Htest) as ->.
    assert (Hb : loop_body k (running a t0)
                 = (Raise (OverflowError "int too large to convert to float"),
                    running a t0)).
    { unfold loop_body, bind, time_time, read_last_time, read_args, evaluate.
      rewrite Hnow. now rewrite Htest. }
    rewrite Hb. eexists. eexists. split; [reflexivity|]. split; [reflexivity | now right].
Qed.

(** X16, at a concrete input: an interval of [10 ** 10] seconds. *)
Lemma interval_too_long_for_the_wait_witness :
  parse_args setup_argparse (options "10000000000" None) = inl (configuration 10000000000 5)
  /\ (longest_sleep < interval (configuration 10000000000 5))%Z
  /\ exists (h : list event) (msg : string),
       main (options "10000000000" None) (started_at 100) [reading 101; reading 102]
       = (Returns 1,
          h ++ [logging_error ("An unexpected error occurred: " ++ msg)%string;
                print ("Error: " ++ msg)%string])
       /\ filter is_sleep h = []
       /\ (msg = "timestamp too large to convert to C _PyTime_t"%string
           \/ msg = "int too large to convert to float"%string).
Proof.
  split; [reflexivity|]. split; [reflexivity|].
  apply (interval_too_long_for_the_wait
           (options "10000000000" None) (configuration 10000000000 5)
           100 101 (reading 101) [reading 102]); reflexivity.
Defined.
